(** * vertex_agent: the conversation loop of [Agent.prompt] and the transport
    of [APIClient.call_gemini_api]

    A shallow embedding of [src/vertex_agent/agent.py] and
    [src/vertex_agent/api_client.py].

    - Python values that travel as JSON are the inductive [json]; a JSON number
      is an integer (floating-point numbers are left out of the model).
    - The dynamic operations the code applies to such values ([x.get(k)],
      [x[k]], [k in x], [not x], iteration, [list.index], [==]) are total
      functions returning [res]: either a value or the Python exception the
      interpreter raises.
    - List objects that are shared (the caller's [conversation_history], which
      [payload["contents"]] aliases) live in a store [gmap loc (list json)].
    - The outside world (credentials, HTTP endpoint, tool execution, the JSON
      parser) is a set of Section variables; nothing is assumed about them.
    - A string is a sequence of characters, one [ascii] each.
    - [DebugLogger] calls only write trace files and are not part of the
      model. *)

From Stdlib Require Import ZArith Ascii String List Bool Lia.
From stdpp Require Import base option list gmap strings pretty.

Set Warnings "-register-all".
Open Scope string_scope.
Open Scope list_scope.
Open Scope nat_scope.

(** ** Python values *)

Inductive json : Type :=
  | JNull
  | JBool (b : bool)
  | JInt (z : Z)
  | JStr (s : string)
  | JList (l : list json)
  | JObj (kv : list (string * json)).

(** Exceptions; the string is what [str(e)] gives where the code formats it. *)
Inductive exn : Type :=
  | KeyError (s : string)
  | IndexError (s : string)
  | TypeError
  | AttributeError
  | ValueError
  | JSONDecodeError
  | HTTPError (s : string)
  | OtherException (s : string).

Inductive res (A : Type) : Type :=
  | Ok (a : A)
  | Raise (e : exn).
Arguments Ok {A} a.
Arguments Raise {A} e.

Definition res_bind {A B} (r : res A) (k : A -> res B) : res B :=
  match r with
  | Ok a => k a
  | Raise e => Raise e
  end.

Notation "x <-? r ;; k" := (res_bind r (fun x => k))
  (at level 100, r at next level, right associativity).

(** *** Dictionaries: insertion-ordered, looked up by key *)

Fixpoint dict_lookup (k : string) (kv : list (string * json)) : option json :=
  match kv with
  | [] => None
  | (k', v) :: rest => if String.eqb k k' then Some v else dict_lookup k rest
  end.

Definition dict_has (k : string) (kv : list (string * json)) : bool :=
  match dict_lookup k kv with Some _ => true | None => false end.

(** *** Truth value: [bool(x)], used by [if x] and [not x] *)

Definition truthy (v : json) : bool :=
  match v with
  | JNull => false
  | JBool b => b
  | JInt z => negb (z =? 0)%Z
  | JStr s => match s with EmptyString => false | String _ _ => true end
  | JList l => match l with [] => false | _ => true end
  | JObj kv => match kv with [] => false | _ => true end
  end.

(** *** [==] *)

Definition bool_to_Z (b : bool) : Z := if b then 1%Z else 0%Z.

Fixpoint py_eq (a b : json) : bool :=
  match a, b with
  | JNull, JNull => true
  | JBool x, JBool y => Bool.eqb x y
  | JBool x, JInt y => (bool_to_Z x =? y)%Z
  | JInt x, JBool y => (x =? bool_to_Z y)%Z
  | JInt x, JInt y => (x =? y)%Z
  | JStr x, JStr y => String.eqb x y
  | JList xs, JList ys =>
      (fix go (xs ys : list json) : bool :=
         match xs, ys with
         | [], [] => true
         | x :: xs', y :: ys' => py_eq x y && go xs' ys'
         | _, _ => false
         end) xs ys
  | JObj xs, JObj ys =>
      (length xs =? length ys)%nat &&
      (fix go (xs : list (string * json)) : bool :=
         match xs with
         | [] => true
         | (k, v) :: xs' =>
             match dict_lookup k ys with
             | Some w => py_eq v w
             | None => false
             end && go xs'
         end) xs
  | _, _ => false
  end.

(** *** [needle in haystack] for strings *)

Fixpoint is_substring (needle hay : string) : bool :=
  String.prefix needle hay ||
  match hay with
  | EmptyString => false
  | String _ hay' => is_substring needle hay'
  end.

(** *** [k in x] for a string [k] *)

Definition py_contains (k : string) (x : json) : res bool :=
  match x with
  | JObj kv => Ok (dict_has k kv)
  | JStr s => Ok (is_substring k s)
  | JList l => Ok (existsb (fun e => py_eq e (JStr k)) l)
  | JNull | JBool _ | JInt _ => Raise TypeError
  end.

(** *** [x.get(k)] and [x.get(k, d)]: only dictionaries have [get] *)

Definition py_get_default (x : json) (k : string) (d : json) : res json :=
  match x with
  | JObj kv => Ok (default d (dict_lookup k kv))
  | _ => Raise AttributeError
  end.

Definition py_get (x : json) (k : string) : res json := py_get_default x k JNull.

(** *** [x[k]] for a string [k], and [x[0]]

    The keys the program subscripts with are plain identifiers, for which
    [str(KeyError(k))] is [k] between single quotes. *)

Definition py_getitem (x : json) (k : string) : res json :=
  match x with
  | JObj kv =>
      match dict_lookup k kv with
      | Some v => Ok v
      | None => Raise (KeyError ("'" +:+ k +:+ "'"))
      end
  | _ => Raise TypeError
  end.

Definition py_getitem0 (x : json) : res json :=
  match x with
  | JList l =>
      match l with
      | v :: _ => Ok v
      | [] => Raise (IndexError "list index out of range")
      end
  | JStr s =>
      match s with
      | String c _ => Ok (JStr (String c EmptyString))
      | EmptyString => Raise (IndexError "string index out of range")
      end
  | JObj _ => Raise (KeyError "0")
  | JNull | JBool _ | JInt _ => Raise TypeError
  end.

(** *** [for p in x]: the sequence of values the loop visits *)

Fixpoint string_chars (s : string) : list json :=
  match s with
  | EmptyString => []
  | String c s' => JStr (String c EmptyString) :: string_chars s'
  end.

Definition py_iter (x : json) : res (list json) :=
  match x with
  | JList l => Ok l
  | JStr s => Ok (string_chars s)
  | JObj kv => Ok (map (fun p => JStr (fst p)) kv)
  | JNull | JBool _ | JInt _ => Raise TypeError
  end.

(** *** [type(x).__name__] *)

Definition py_type_name (x : json) : string :=
  match x with
  | JNull => "NoneType"
  | JBool _ => "bool"
  | JInt _ => "int"
  | JStr _ => "str"
  | JList _ => "list"
  | JObj _ => "dict"
  end.

(** *** Slicing and [index], as [content["parts"][content["parts"].index(part) + 1:]] uses them

    [list.index(x)] returns the first position whose element is [x] itself
    or compares equal to [x].  The elements of a parsed response are distinct
    objects, so "is [x] itself" is "has the position of [x]": [pos] is the
    position the loop took [x] from. *)

Fixpoint list_index_from (j pos : nat) (x : json) (l : list json) : option nat :=
  match l with
  | [] => None
  | e :: l' =>
      if (j =? pos)%nat || py_eq e x then Some j
      else list_index_from (S j) pos x l'
  end.

Fixpoint string_find_from (j : nat) (needle hay : string) : option nat :=
  if String.prefix needle hay then Some j
  else match hay with
       | EmptyString => None
       | String _ hay' => string_find_from (S j) needle hay'
       end.

Definition py_index (container : json) (pos : nat) (x : json) : res nat :=
  match container with
  | JList l =>
      match list_index_from 0 pos x l with
      | Some j => Ok j
      | None => Raise ValueError
      end
  | JStr s =>
      match x with
      | JStr sub =>
          match string_find_from 0 sub s with
          | Some j => Ok j
          | None => Raise ValueError
          end
      | _ => Raise TypeError
      end
  | _ => Raise AttributeError
  end.

Fixpoint string_drop (n : nat) (s : string) : string :=
  match n, s with
  | O, _ => s
  | S n', String _ s' => string_drop n' s'
  | S _, EmptyString => EmptyString
  end.

Definition py_slice_from (container : json) (n : nat) : res json :=
  match container with
  | JList l => Ok (JList (drop n l))
  | JStr s => Ok (JStr (string_drop n s))
  | _ => Raise TypeError
  end.

(** *** [str(x)] as an f-string field formats it

    The text of a list or a dictionary is left to [repr_container]. *)

Definition py_str (repr_container : json -> string) (x : json) : string :=
  match x with
  | JStr s => s
  | JNull => "None"
  | JBool true => "True"
  | JBool false => "False"
  | JInt z => pretty z
  | JList _ | JObj _ => repr_container x
  end.

Definition nl : string := String (ascii_of_nat 10) EmptyString.
Definition dq : string := String (ascii_of_nat 34) EmptyString.

Fixpoint join (sep : string) (l : list string) : string :=
  match l with
  | [] => EmptyString
  | [s] => s
  | s :: l' => s +:+ sep +:+ join sep l'
  end.

(** ** Data of the two classes *)

Definition loc := nat.

(** One request as [requests.post] receives it. *)
Record request := Request {
  rq_url : string;
  rq_headers : list (string * string);
  rq_payload : json;
}.

(** What [requests.post] gives back: [response.ok] and [response.json()]. *)
Record http_response := HttpResponse {
  resp_ok : bool;
  resp_json : res json;
}.

(** Result of [ToolProcessor.execute_tool]: the pair it returns, or the text
    [str(e)] of the exception it raises. *)
Inductive tool_outcome : Type :=
  | ToolReturned (function_result variable_name : json)
  | ToolRaised (msg : string).

(** *** api_client.py: the client and the network it talks to

    [sent] lists the requests posted so far, oldest first. *)
Record APIClient (C : Type) := mkAPIClient {
  key_path : string;
  model_name : string;
  region : string;
  project_id : string;
  base_url : string;
  creds : C;
}.
Arguments mkAPIClient {C}.
Arguments key_path {C}.
Arguments model_name {C}.
Arguments region {C}.
Arguments project_id {C}.
Arguments base_url {C}.
Arguments creds {C}.

Definition set_creds {C} (self : APIClient C) (c : C) : APIClient C :=
  {| key_path := key_path self; model_name := model_name self;
     region := region self; project_id := project_id self;
     base_url := base_url self; creds := c |}.

Record transport (C W : Type) := mkTransport {
  client : APIClient C;
  net : W;
  sent : list request;
}.
Arguments mkTransport {C W}.
Arguments client {C W}.
Arguments net {C W}.
Arguments sent {C W}.

(** *** agent.py: the agent and the objects it reaches

    The store of list objects, the variable manager, the tool processor's
    [_intermediate_results] and the API client. *)
Record agent (C W V : Type) := mkAgent {
  heap : gmap loc (list json);
  variable_manager : V;
  intermediate_results : gmap string json;
  api_client : transport C W;
}.
Arguments mkAgent {C W V}.
Arguments heap {C W V}.
Arguments variable_manager {C W V}.
Arguments intermediate_results {C W V}.
Arguments api_client {C W V}.

Definition set_heap {C W V} (st : agent C W V) (h : gmap loc (list json))
  : agent C W V :=
  mkAgent h (variable_manager st) (intermediate_results st) (api_client st).

Definition set_intermediate_results {C W V} (st : agent C W V)
    (ir : gmap string json) : agent C W V :=
  mkAgent (heap st) (variable_manager st) ir (api_client st).

Definition set_tools_state {C W V} (st : agent C W V) (ts : V * gmap string json)
  : agent C W V :=
  mkAgent (heap st) (fst ts) (snd ts) (api_client st).

Definition set_api_client {C W V} (st : agent C W V) (t : transport C W)
  : agent C W V :=
  mkAgent (heap st) (variable_manager st) (intermediate_results st) t.

(** The list object at [l], and [list.append] on it. *)
Definition deref (h : gmap loc (list json)) (l : loc) : list json :=
  default [] (h !! l).

Definition append_at {C W V} (l : loc) (x : json) (st : agent C W V)
  : agent C W V :=
  set_heap st (alter (fun xs => xs ++ [x]) l (heap st)).

(** [payload] is a dictionary whose "contents" entry refers to a list object
    of the store; the optional entries are present or not. *)
Record Payload := mkPayload {
  system_instruction : json;
  contents : loc;
  tools : option json;
  toolConfig : option json;
  generationConfig : option json;
}.

(** The f-string of [_setup_credentials] and of the override branch. *)
Definition endpoint_url (region project_id model_name : string) : string :=
  "https://" +:+ region +:+ "-aiplatform.googleapis.com/v1/projects/" +:+
  project_id +:+ "/locations/" +:+ region +:+ "/publishers/google/models/" +:+
  model_name +:+ ":generateContent".

(** ** A scripted world

    Stand-ins for the outside world on which the model runs: the state of the
    network is the list of replies still to come, credentials always refresh,
    the one registered tool [f] always raises, and the parser knows two
    texts. *)

Definition script := list (res http_response).

Definition scripted_load (key_path : string) : res unit :=
  if String.eqb key_path "missing.json" then Raise (OtherException "no such file")
  else Ok tt.

Definition scripted_project_id (c : unit) : string := "proj".

Definition scripted_refresh (c : unit) (w : script) : script * res unit := (w, Ok c).

Definition scripted_token (c : unit) : json := JStr "token".

Definition scripted_post (w : script) (rq : request) : script * res http_response :=
  match w with
  | [] => ([], Raise (OtherException "connection refused"))
  | reply :: w' => (w', reply)
  end.

Definition scripted_repr (x : json) : string := "<container>".

Definition scripted_loads (s : string) : option json :=
  if String.eqb s "1" then Some (JInt 1)
  else if String.eqb s "null" then Some JNull
  else None.

(** A parser that accepts every text. *)
Definition lenient_loads (s : string) : option json := Some (JStr s).

Definition scripted_tools : list json :=
  [JObj [("name", JStr "f"); ("description", JStr "a tool")]].

Definition scripted_has_tool (name : json) : bool := py_eq name (JStr "f").

Definition no_tool (name : json) : bool := false.

Definition scripted_execute (ts : unit * gmap string json) (name args : json)
  : unit * gmap string json * tool_outcome :=
  (ts, ToolRaised "boom").

Definition scripted_variables_info (v : unit) : string := "none".

(** A tool that returns 7 and stores it as [result_1]; credentials that do
    not refresh; a declaration without a name. *)
Definition returning_execute (ts : unit * gmap string json) (name args : json)
  : unit * gmap string json * tool_outcome :=
  ((fst ts, <["result_1" := JInt 7]> (snd ts)),
   ToolReturned (JInt 7) (JStr "result_1")).

Definition failing_refresh (c : unit) (w : script) : script * res unit :=
  (w, Raise (OtherException "refresh failed")).

Definition nameless_tools : list json := [JObj [("description", JStr "a tool")]].

Definition scripted_client : APIClient unit :=
  mkAPIClient "key.json" "gemini-1.5-flash" "us-central1" "proj"
    (endpoint_url "us-central1" "proj" "gemini-1.5-flash") tt.

Definition scripted_agent (h : gmap loc (list json)) (w : script)
  : agent unit script unit :=
  mkAgent h tt ∅ (mkTransport scripted_client w []).

(** A successful reply whose first candidate has the given parts, a reply
    with a non-success status, and parts. *)
Definition reply_with (parts : list json) : res http_response :=
  Ok (HttpResponse true
        (Ok (JObj [("candidates",
                    JList [JObj [("content", JObj [("parts", JList parts)])]])]))).

Definition reply_blocked : res http_response :=
  Ok (HttpResponse true
        (Ok (JObj [("promptFeedback", JObj [("blockReason", JStr "SAFETY")])]))).

Definition reply_failure : res http_response :=
  Ok (HttpResponse false (Ok (JObj [("error", JObj [("message", JStr "quota")])]))).

Definition call_of (name : string) : json :=
  JObj [("functionCall", JObj [("name", JStr name)])].

Definition plain_payload (l : loc) : Payload := mkPayload JNull l None None None.

Section World.

(** Credentials objects and the state of the network. *)
Variable C : Type.
Variable W : Type.
(** State of the variable manager (shared by the agent and its tool
    processor). *)
Variable V : Type.

(** [Credentials.from_service_account_file] on a key path, and the
    [project_id] of the credentials it gives. *)
Variable load_credentials : string -> res C.
Variable creds_project_id : C -> string.

(** [creds.refresh(Request())], [creds.token], and [requests.post]. *)
Variable creds_refresh : C -> W -> W * res C.
Variable creds_token : C -> json.
Variable http_post : W -> request -> W * res http_response.

(** [str] of lists and dictionaries, and [json.loads] on a string ([None]
    when it raises [JSONDecodeError]). *)
Variable repr_container : json -> string.
Variable json_loads : string -> option json.

(** [ToolProcessor.get_tools_json], [has_tool], [execute_tool] and
    [VariableManager.get_variables_info]; [execute_tool] works on the variable
    manager and on [_intermediate_results]. *)
Variable tools_json : list json.
Variable has_tool : json -> bool.
Variable execute_tool :
  V * gmap string json -> json -> json -> V * gmap string json * tool_outcome.
Variable get_variables_info : V -> string.

Definition fmt : json -> string := py_str repr_container.

Definition py_json_loads (x : json) : res json :=
  match x with
  | JStr s =>
      match json_loads s with
      | Some v => Ok v
      | None => Raise JSONDecodeError
      end
  | _ => Raise TypeError
  end.

(** ** api_client.py *)

(** [_setup_credentials], for the key path, model and region of [self]. *)
Definition _setup_credentials (key_path model_name region : string)
  : res (APIClient C) :=
  creds <-? load_credentials key_path ;;
  let project_id := creds_project_id creds in
  Ok (mkAPIClient key_path model_name region project_id
        (endpoint_url region project_id model_name) creds).

(** [APIClient.__init__] *)
Definition APIClient_init (key_path model_name region : string) : res (APIClient C) :=
  match key_path with
  | EmptyString => Raise ValueError
  | String _ _ => _setup_credentials key_path model_name region
  end.

(** [APIClient.set_project]: the client as the method leaves it, and how the
    method ends.  [self.key_path] is assigned before the credentials are
    loaded, so it is already changed when loading raises. *)
Definition set_project (self : APIClient C) (key_path : string)
  : APIClient C * res unit :=
  match key_path with
  | EmptyString => (self, Raise (OtherException "please set a key path"))
  | String _ _ =>
      match _setup_credentials key_path (model_name self) (region self) with
      | Ok self' => (self', Ok tt)
      | Raise e =>
          (mkAPIClient key_path (model_name self) (region self) (project_id self)
             (base_url self) (creds self),
           Raise e)
      end
  end.

(** The URL of one call: [self.base_url] unless [config] is truthy. *)
Definition request_url (self : APIClient C) (config : json) : res string :=
  if truthy config then
    model_name' <-? py_get_default config "model_name" (JStr (model_name self)) ;;
    region' <-? py_get_default config "region" (JStr (region self)) ;;
    Ok (endpoint_url (fmt region') (project_id self) (fmt model_name'))
  else Ok (base_url self).

(** The [if not response.ok] block: the [HTTPError] message. *)
Definition http_error_message (response_data : json) : res string :=
  error_details <-? py_get_default response_data "error" (JObj []) ;;
  message <-? py_get_default error_details "message" (JStr "Unknown error") ;;
  let error_message := "Gemini API Error: " +:+ fmt message in
  has_details <-? py_contains "details" error_details ;;
  if has_details then
    details <-? py_getitem error_details "details" ;;
    Ok (error_message +:+ nl +:+ "Details: " +:+ fmt details)
  else Ok error_message.

Definition call_gemini_api (t : transport C W) (payload config : json)
  : transport C W * res json :=
  let self := client t in
  match creds_refresh (creds self) (net t) with
  | (w1, Raise e) => (mkTransport self w1 (sent t), Raise e)
  | (w1, Ok c1) =>
      let self1 := set_creds self c1 in
      let headers :=
        [("Authorization", "Bearer " +:+ fmt (creds_token c1));
         ("Content-Type", "application/json")] in
      match request_url self1 config with
      | Raise e => (mkTransport self1 w1 (sent t), Raise e)
      | Ok url =>
          let rq := Request url headers payload in
          let (w2, posted) := http_post w1 rq in
          let t2 := mkTransport self1 w2 (sent t ++ [rq]) in
          match posted with
          | Raise e => (t2, Raise e)
          | Ok response =>
              match resp_json response with
              | Raise e => (t2, Raise e)
              | Ok response_data =>
                  if negb (resp_ok response) then
                    match http_error_message response_data with
                    | Ok error_message => (t2, Raise (HTTPError error_message))
                    | Raise e => (t2, Raise e)
                    end
                  else (t2, Ok response_data)
              end
          end
      end
  end.

(** ** agent.py *)

(** *** Turns and parts as the code writes them *)

Definition turn (role : string) (part : json) : json :=
  JObj [("role", JStr role); ("parts", JList [part])].

Definition text_part (text : string) : json := JObj [("text", JStr text)].

Definition error_response_part (tool_name : json) (error_msg : string) : json :=
  JObj [("functionResponse",
         JObj [("name", tool_name);
               ("response", JObj [("error", JStr error_msg)])])].

Definition function_response_part (tool_name function_result variable_name : json)
  : json :=
  JObj [("functionResponse",
         JObj [("name", tool_name);
               ("response",
                JObj [("content", function_result);
                      ("key", variable_name);
                      ("content_type", JStr (py_type_name function_result))])])].

Definition error_result (fields : list (string * json)) : json :=
  JObj [("error", JObj fields)].

(** *** [_get_system_prompt] *)

Definition tool_line (tool : json) : res string :=
  name <-? py_getitem tool "name" ;;
  description <-? py_getitem tool "description" ;;
  Ok ("- " +:+ fmt name +:+ ": " +:+ fmt description).

Fixpoint tool_lines (tools : list json) : res (list string) :=
  match tools with
  | [] => Ok []
  | tool :: tools' =>
      line <-? tool_line tool ;;
      lines <-? tool_lines tools' ;;
      Ok (line :: lines)
  end.

Definition variable_marker : string :=
  "{" +:+ dq +:+ "variable" +:+ dq +:+ ": " +:+ dq +:+ "variable_name" +:+ dq +:+ "}".

Definition system_prompt_text (tools_list variables_info : string) : string :=
  join nl
    [ EmptyString;
      "        Available tools:";
      "        " +:+ tools_list;
      "        ";
      "        Available variables:";
      "        " +:+ variables_info;
      "        ";
      "        IMPORTANT - Variable Usage:";
      "        When you need to use a stored variable in a function call, you MUST use the following syntax:";
      "        - For function arguments: " +:+ variable_marker;
      "        - For example, if you want to use the 'current_user' variable in a function call:";
      "          {" +:+ dq +:+ "user_id" +:+ dq +:+ ": {" +:+ dq +:+ "variable" +:+ dq
        +:+ ": " +:+ dq +:+ "current_user" +:+ dq +:+ "}}";
      "        ";
      "        Remember:";
      "        - Always perform one operation at a time";
      "        - Use intermediate results from previous steps";
      "        - If a step requires multiple tools, execute them sequentially";
      "        - If you're unsure about the next step, explain your reasoning";
      "        - You can use both stored variables and values from the prompt";
      "        - When using stored variables, ALWAYS use the " +:+ variable_marker +:+ " syntax";
      "        " ].

Definition _get_system_prompt (st : agent C W V) : res string :=
  let variables_info := get_variables_info (variable_manager st) in
  lines <-? tool_lines tools_json ;;
  Ok (system_prompt_text (join nl lines) variables_info).

Definition system_instruction_of (system_prompt : option string) (generated : string)
  : json :=
  JObj [("parts",
         JList [JObj [("text", JStr (default EmptyString system_prompt))];
                JObj [("text", JStr generated)]])].

(** *** The request payload *)

Definition optional_entry (k : string) (v : option json) : list (string * json) :=
  match v with
  | Some x => [(k, x)]
  | None => []
  end.

(** The dictionary as it is serialised when the request is posted. *)
Definition payload_json (h : gmap loc (list json)) (p : Payload) : json :=
  JObj ([("system_instruction", system_instruction p);
         ("contents", JList (deref h (contents p)))]
        ++ optional_entry "tools" (tools p)
        ++ optional_entry "toolConfig" (toolConfig p)
        ++ optional_entry "generationConfig" (generationConfig p)).

Definition json_mime : json := JObj [("response_mime_type", JStr "application/json")].

(** [Agent.set_project] *)
Definition Agent_set_project (st : agent C W V) (key_path : string)
  : agent C W V * res unit :=
  let (self', r) := set_project (client (api_client st)) key_path in
  (set_api_client st
     (mkTransport self' (net (api_client st)) (sent (api_client st))),
   r).

(** *** Control flow

    [signal] is how the processing of one part, or of one response, ends:
    fall through to what follows, [return v], or an exception on its way out.
    [outcome] is how a call of [prompt] ends. *)
Inductive signal : Type :=
  | Next
  | Return (v : json)
  | Throw (e : exn).

Inductive outcome : Type :=
  | Returned (v : json)
  | Raised (e : exn)
  | OutOfFuel.

(** [any("functionCall" in p for p in ps)] *)
Fixpoint any_function_call (ps : list json) : res bool :=
  match ps with
  | [] => Ok false
  | p :: ps' =>
      b <-? py_contains "functionCall" p ;;
      if b then Ok true else any_function_call ps'
  end.

(** [has_more_function_calls] for the part taken from position [pos] of
    [content["parts"]]. *)
Definition has_more_function_calls (parts : json) (pos : nat) (part : json)
  : res bool :=
  idx <-? py_index parts pos part ;;
  later <-? py_slice_from parts (idx + 1) ;;
  ps <-? py_iter later ;;
  any_function_call ps.

Section Call.

(** What stays fixed while the loop of one call runs. *)
Variable payload : Payload.
Variable system_prompt : option string.
Variable json_format : bool.
Variable apply_json_format_later : bool.
Variable config : json.

Definition formatting_request_text (final_text : json) : string :=
  "Based on our conversation above, please format your response as JSON. Here is the current response: "
  +:+ fmt final_text.

Definition formatting_payload (st : agent C W V) (generated : string) (final_text : json)
  : json :=
  JObj [("system_instruction", system_instruction_of system_prompt generated);
        ("contents",
         JList (deref (heap st) (contents payload)
                ++ [turn "user" (text_part (formatting_request_text final_text))]));
        ("generationConfig", json_mime)].

(** [structured_response_data["candidates"][0]["content"]["parts"][0]["text"]] *)
Definition structured_text_of (structured_response_data : json) : res json :=
  candidates <-? py_getitem structured_response_data "candidates" ;;
  candidate <-? py_getitem0 candidates ;;
  content <-? py_getitem candidate "content" ;;
  parts <-? py_getitem content "parts" ;;
  part <-? py_getitem0 parts ;;
  py_getitem part "text".

Definition _format_as_json (st : agent C W V) (final_text : json) (count : nat)
  : agent C W V * signal :=
  match _get_system_prompt st with
  | Raise e => (st, Throw e)
  | Ok generated =>
      let (t1, r) :=
        call_gemini_api (api_client st) (formatting_payload st generated final_text)
          config in
      let st1 := set_api_client st t1 in
      match (structured_response_data <-? r ;;
             structured_text <-? structured_text_of structured_response_data ;;
             py_json_loads structured_text) with
      | Ok v => (st1, Return v)
      | Raise _ => (st1, Return final_text)
      end
  end.

(** The [if "functionCall" in part] branch. *)
Definition handle_function_call (part : json) (st : agent C W V) : agent C W V * signal :=
  let st1 := append_at (contents payload) (turn "model" part) st in
  match (fc <-? py_getitem part "functionCall" ;;
         tool_name <-? py_getitem fc "name" ;;
         args <-? py_get_default fc "args" (JObj []) ;;
         Ok (tool_name, args)) with
  | Raise e => (st1, Throw e)
  | Ok (tool_name, args) =>
      if negb (has_tool tool_name) then
        let error_msg :=
          "Model attempted to call unknown function '" +:+ fmt tool_name +:+ "'." in
        (append_at (contents payload)
           (turn "user" (error_response_part tool_name error_msg)) st1,
         Next)
      else
        match execute_tool (variable_manager st1, intermediate_results st1)
                tool_name args with
        | (ts, ToolReturned function_result variable_name) =>
            let st2 := set_tools_state st1 ts in
            let st3 :=
              append_at (contents payload)
                (turn "user"
                   (text_part
                      ("the return value of the function stored in the variable "
                       +:+ fmt variable_name))) st2 in
            (append_at (contents payload)
               (turn "user"
                  (function_response_part tool_name function_result variable_name))
               st3,
             Next)
        | (ts, ToolRaised e) =>
            let st2 := set_tools_state st1 ts in
            let error_msg :=
              "Error during execution of tool '" +:+ fmt tool_name +:+ "': " +:+ e in
            (append_at (contents payload)
               (turn "user" (error_response_part tool_name error_msg)) st2,
             Next)
        end
  end.

(** The [elif "text" in part] branch. *)
Definition handle_text (parts : json) (pos : nat) (part : json) (count : nat)
    (st : agent C W V) : agent C W V * signal :=
  match (final_text <-? py_getitem part "text" ;;
         more <-? has_more_function_calls parts pos part ;;
         Ok (final_text, more)) with
  | Raise e => (st, Throw e)
  | Ok (final_text, true) => (st, Next)
  | Ok (final_text, false) =>
      if apply_json_format_later then _format_as_json st final_text count
      else if json_format then
        match py_json_loads final_text with
        | Ok v => (st, Return v)
        | Raise JSONDecodeError => (st, Return final_text)
        | Raise e => (st, Throw e)
        end
      else (st, Return final_text)
  end.

(** The body of [for part in content["parts"]] for the part at [pos]. *)
Definition process_part (parts : json) (pos : nat) (part : json) (count : nat)
    (st : agent C W V) : agent C W V * signal :=
  match py_contains "functionCall" part with
  | Raise e => (st, Throw e)
  | Ok true => handle_function_call part st
  | Ok false =>
      match py_contains "text" part with
      | Raise e => (st, Throw e)
      | Ok true => handle_text parts pos part count st
      | Ok false => (st, Next)
      end
  end.

(** The [for] loop from position [pos] on; [rest] are the parts not visited
    yet. *)
Fixpoint process_parts (parts : json) (pos : nat) (rest : list json) (count : nat)
    (st : agent C W V) : agent C W V * signal :=
  match rest with
  | [] => (st, Next)
  | part :: rest' =>
      match process_part parts pos part count st with
      | (st', Next) => process_parts parts (S pos) rest' count st'
      | stop => stop
      end
  end.

(** The [try] block of the loop body, without its handler. *)
Definition process_response (response_data : json) (count : nat) (st : agent C W V)
  : agent C W V * signal :=
  match (candidates <-? py_getitem response_data "candidates" ;;
         candidate <-? py_getitem0 candidates ;;
         content <-? py_getitem candidate "content" ;;
         parts <-? py_getitem content "parts" ;;
         items <-? py_iter parts ;;
         Ok (parts, items)) with
  | Raise e => (st, Throw e)
  | Ok (parts, items) => process_parts parts 0 items count st
  end.

Definition parse_error_result (msg : string) (response_data : json) : json :=
  error_result [("message", JStr ("Error parsing API response: " +:+ msg));
                ("details", response_data)].

(** [except (KeyError, IndexError) as e] *)
Definition catch_parse_errors (response_data : json) (r : agent C W V * signal)
  : agent C W V * signal :=
  match r with
  | (st, Throw (KeyError msg)) => (st, Return (parse_error_result msg response_data))
  | (st, Throw (IndexError msg)) => (st, Return (parse_error_result msg response_data))
  | _ => r
  end.

(** The [if not response_data.get("candidates")] block. *)
Definition blocked_result (response_data : json) : res json :=
  feedback <-? py_get response_data "promptFeedback" ;;
  block_reason <-?
    (if truthy feedback then py_get feedback "blockReason" else Ok (JStr "Unknown")) ;;
  let error_msg := "Request blocked by API. Reason: " +:+ fmt block_reason +:+ "." in
  Ok (error_result [("message", JStr error_msg); ("details", feedback)]).

(** Everything the loop body does with a response it received. *)
Definition handle_response (response_data : json) (count : nat) (st : agent C W V)
  : agent C W V * signal :=
  match py_get response_data "candidates" with
  | Raise e => (st, Throw e)
  | Ok candidates =>
      if negb (truthy candidates) then
        match blocked_result response_data with
        | Ok v => (st, Return v)
        | Raise e => (st, Throw e)
        end
      else catch_parse_errors response_data (process_response response_data count st)
  end.

(** One iteration of [while True]. *)
Definition loop_body (count : nat) (st : agent C W V) : agent C W V * signal :=
  let (t1, r) :=
    call_gemini_api (api_client st) (payload_json (heap st) payload) config in
  let st1 := set_api_client st t1 in
  match r with
  | Raise (HTTPError msg) => (st1, Return (error_result [("message", JStr msg)]))
  | Raise e => (st1, Throw e)
  | Ok response_data => handle_response response_data (S count) st1
  end.

(** [while True], cut off after [fuel] iterations.  The [return] that follows
    the loop in the source is never reached. *)
Fixpoint conversation_loop (fuel : nat) (count : nat) (st : agent C W V)
  : agent C W V * outcome :=
  match fuel with
  | O => (st, OutOfFuel)
  | S fuel' =>
      match loop_body count st with
      | (st', Next) => conversation_loop fuel' (S count) st'
      | (st', Return v) => (st', Returned v)
      | (st', Throw e) => (st', Raised e)
      end
  end.

End Call.

(** [conversation_history if conversation_history else []] *)
Definition new_list (st : agent C W V) : loc * agent C W V :=
  let l := fresh (dom (heap st)) in
  (l, set_heap st (<[l := []]> (heap st))).

Definition choose_contents (conversation_history : option loc) (st : agent C W V)
  : loc * agent C W V :=
  match conversation_history with
  | Some l => if truthy (JList (deref (heap st) l)) then (l, st) else new_list st
  | None => new_list st
  end.

Definition has_tools : bool := truthy (JList tools_json).

Definition build_payload (system_prompt : option string) (json_format : bool)
    (generated : string) (current_contents : loc) : Payload :=
  {| system_instruction := system_instruction_of system_prompt generated;
     contents := current_contents;
     tools :=
       if has_tools
       then Some (JList [JObj [("functionDeclarations", JList tools_json)]])
       else None;
     toolConfig :=
       if has_tools
       then Some (JObj [("functionCallingConfig", JObj [("mode", JStr "AUTO")])])
       else None;
     generationConfig :=
       if json_format && negb has_tools then Some json_mime else None |}.

(** [Agent.prompt]; [fuel] bounds the iterations of its loop. *)
Definition prompt (st : agent C W V) (user_prompt : string) (system_prompt : option string)
    (json_format : bool) (conversation_history : option loc)
    (config : option json) (fuel : nat) : agent C W V * outcome :=
  let config := default (JObj []) config in
  let st0 := set_intermediate_results st ∅ in
  let (current_contents, st1) := choose_contents conversation_history st0 in
  match _get_system_prompt st1 with
  | Raise e => (st1, Raised e)
  | Ok generated =>
      let payload := build_payload system_prompt json_format generated current_contents in
      let st2 := append_at current_contents (turn "user" (text_part user_prompt)) st1 in
      let apply_json_format_later := json_format && has_tools in
      conversation_loop payload system_prompt json_format apply_json_format_later
        config fuel 0 st2
  end.

(** *** What a run leaves behind

    [grows l base ok st st'] relates the state before and after some steps of
    a call whose contents are the list object at [l]: that list still starts
    with [base], no list object was created and no other one was touched, and
    the requests posted in between all satisfy [ok]. *)

Definition no_tool_fields (rq : request) : Prop :=
  py_contains "tools" (rq_payload rq) = Ok false /\
  py_contains "toolConfig" (rq_payload rq) = Ok false.

Definition carries (base : list json) (rq : request) : Prop :=
  exists more, py_getitem (rq_payload rq) "contents" = Ok (JList (base ++ more)).

Definition starts_with (l : loc) (base : list json) (st : agent C W V) : Prop :=
  exists more, heap st !! l = Some (base ++ more).

Definition grows (l : loc) (base : list json) (ok : request -> Prop)
    (st st' : agent C W V) : Prop :=
  starts_with l base st' /\
  dom (heap st') = dom (heap st) /\
  (forall l', l' <> l -> heap st' !! l' = heap st !! l') /\
  (exists new, sent (api_client st') = sent (api_client st) ++ new /\ Forall ok new).

(** A reply of the documented shape whose first candidate has the parts
    [items]. *)
Definition has_parts (response_data : json) (items : list json) : Prop :=
  exists kv ckv others cokv,
    response_data = JObj kv /\
    dict_lookup "candidates" kv = Some (JList (JObj ckv :: others)) /\
    dict_lookup "content" ckv = Some (JObj cokv) /\
    dict_lookup "parts" cokv = Some (JList items).

(** A request does not ask for tool calling and for JSON output at once. *)
Definition tools_exclude_json_mode (rq : request) : Prop :=
  py_contains "tools" (rq_payload rq) = Ok true ->
  py_contains "generationConfig" (rq_payload rq) = Ok false.

(** A part that is an object with neither a function call nor a text. *)
Definition is_other_part (part : json) : Prop :=
  exists kv,
    part = JObj kv /\
    dict_lookup "functionCall" kv = None /\ dict_lookup "text" kv = None.

(** A turn of the user. *)
Definition is_user_turn (t : json) : Prop := py_getitem t "role" = Ok (JStr "user").

(** ** Properties *)

(** *** The store *)

Lemma lookup_append_at (l : loc) (x : json) (st : agent C W V) (xs : list json) :
  heap st !! l = Some xs -> heap (append_at l x st) !! l = Some (xs ++ [x]).
Proof.
  intros H. unfold append_at. simpl. rewrite lookup_alter_eq, H. reflexivity.
Qed.

Lemma lookup_append_at_ne (l l' : loc) (x : json) (st : agent C W V) :
  l <> l' -> heap (append_at l x st) !! l' = heap st !! l'.
Proof.
  intros H. unfold append_at. simpl. apply lookup_alter_ne. exact H.
Qed.

Lemma dom_append_at (l : loc) (x : json) (st : agent C W V) :
  dom (heap (append_at l x st)) = dom (heap st).
Proof. unfold append_at. simpl. apply dom_alter_L. Qed.

(** *** Subscripting *)

Lemma py_getitem_Ok (x : json) (k : string) (v : json) :
  py_getitem x k = Ok v -> exists kv, x = JObj kv /\ dict_lookup k kv = Some v.
Proof.
  destruct x; simpl; try discriminate.
  destruct (dict_lookup k kv) eqn:E; intros H; inversion H; subst; eauto.
Qed.

Lemma py_getitem_contains (x : json) (k : string) (v : json) :
  py_getitem x k = Ok v -> py_contains k x = Ok true.
Proof.
  intros H. apply py_getitem_Ok in H as (kv & -> & H).
  simpl. unfold dict_has. rewrite H. reflexivity.
Qed.

(** *** Which text is final

    [index] stops at the first part that is the text part or equals it, so it
    never passes the part's own position: a function call after the part is
    always seen.  It stops exactly at the part when no earlier part equals it,
    and then only the parts after it are looked at. *)

Lemma list_index_from_bounds (x : json) (l : list json) : forall j k,
  k < length l ->
  exists i, list_index_from j (j + k) x l = Some i /\ j <= i <= j + k.
Proof.
  induction l as [| e l IH]; intros j k Hk; simpl in Hk; [lia |].
  simpl. destruct ((j =? j + k) || py_eq e x) eqn:Hhit.
  - exists j. split; [reflexivity | lia].
  - apply orb_false_iff in Hhit as [Hne _]. apply Nat.eqb_neq in Hne.
    destruct k as [| k]; [lia |].
    destruct (IH (S j) k) as (i & Hi & Hb); [lia |].
    replace (j + S k) with (S j + k) by lia.
    exists i. split; [exact Hi | lia].
Qed.

Lemma list_index_from_exact (x : json) (l : list json) : forall j k,
  k < length l ->
  (forall m q, m < k -> l !! m = Some q -> py_eq q x = false) ->
  list_index_from j (j + k) x l = Some (j + k).
Proof.
  induction l as [| e l IH]; intros j k Hk Hfirst; simpl in Hk; [lia |].
  simpl. destruct k as [| k].
  - rewrite Nat.add_0_r, Nat.eqb_refl. reflexivity.
  - replace (j =? j + S k) with false by (symmetry; apply Nat.eqb_neq; lia).
    rewrite (Hfirst 0 e); [| lia | reflexivity]. simpl.
    replace (j + S k) with (S j + k) by lia.
    apply IH; [lia |].
    intros m q Hm Hq. apply (Hfirst (S m) q); [lia | exact Hq].
Qed.

Lemma any_function_call_true (ps : list json) (j : nat) (q : json) :
  Forall (fun p => exists b, py_contains "functionCall" p = Ok b) ps ->
  ps !! j = Some q ->
  py_contains "functionCall" q = Ok true ->
  any_function_call ps = Ok true.
Proof.
  revert j. induction ps as [| p ps IH]; intros j Hall Hj Hq; [discriminate |].
  inversion Hall as [| ? ? [b Hb] Hall']; subst. simpl. rewrite Hb. simpl.
  destruct b; [reflexivity |].
  destruct j as [| j]; simpl in Hj.
  - inversion Hj; subst. congruence.
  - eapply IH; eauto.
Qed.

Lemma any_function_call_false (ps : list json) :
  Forall (fun p => py_contains "functionCall" p = Ok false) ps ->
  any_function_call ps = Ok false.
Proof.
  induction 1 as [| p ps Hp _ IH]; [reflexivity |].
  simpl. rewrite Hp. simpl. exact IH.
Qed.

(** For every arrangement of parts that can be tested for a function call, a
    text part with a function call somewhere after it is never final. *)
Lemma text_ignored_when_call_follows
    (l : list json) (pos j : nat) (part q : json) :
  Forall (fun p => exists b, py_contains "functionCall" p = Ok b) l ->
  l !! pos = Some part ->
  pos < j ->
  l !! j = Some q ->
  py_contains "functionCall" q = Ok true ->
  has_more_function_calls (JList l) pos part = Ok true.
Proof.
  intros Hall Hpos Hlt Hj Hq.
  destruct (list_index_from_bounds part l 0 pos) as (i & Hi & Hb).
  { apply lookup_lt_Some in Hpos. exact Hpos. }
  unfold has_more_function_calls. simpl in Hi |- *. rewrite Hi. simpl.
  apply (any_function_call_true _ (j - (i + 1)) q).
  - apply Forall_drop. exact Hall.
  - rewrite lookup_drop. replace (i + 1 + (j - (i + 1))) with j by lia. exact Hj.
  - exact Hq.
Qed.

(** A text part that no earlier part equals, with no function call after it,
    is final. *)
Lemma text_final_when_not_repeated (l : list json) (pos : nat) (part : json) :
  l !! pos = Some part ->
  (forall m q, m < pos -> l !! m = Some q -> py_eq q part = false) ->
  (forall j q, pos < j -> l !! j = Some q -> py_contains "functionCall" q = Ok false) ->
  has_more_function_calls (JList l) pos part = Ok false.
Proof.
  intros Hpos Hfirst Hlater.
  pose proof (list_index_from_exact part l 0 pos) as Hi.
  unfold has_more_function_calls. simpl in Hi |- *.
  rewrite Hi; [| apply lookup_lt_Some in Hpos; exact Hpos | exact Hfirst]. simpl.
  apply any_function_call_false. apply Forall_lookup.
  intros k q Hk. rewrite lookup_drop in Hk.
  apply (Hlater (pos + 1 + k) q); [lia | exact Hk].
Qed.

(** *** The transport *)

Lemma request_url_set_creds (self : APIClient C) (c : C) (config : json) :
  request_url (set_creds self c) config = request_url self config.
Proof. reflexivity. Qed.

(** A call changes the credentials at most, and posts at most one request:
    the one for its payload, at the URL of the call. *)
Lemma call_gemini_api_effect (t : transport C W) (payload config : json) :
  let t1 := fst (call_gemini_api t payload config) in
  (client t1 = client t \/ exists c, client t1 = set_creds (client t) c) /\
  (sent t1 = sent t
   \/ exists url headers,
        request_url (client t) config = Ok url /\
        sent t1 = sent t ++ [Request url headers payload]).
Proof.
  unfold call_gemini_api.
  destruct (creds_refresh (creds (client t)) (net t)) as [w1 [c1 | e]]; simpl.
  - rewrite request_url_set_creds.
    destruct (request_url (client t) config) as [url | e] eqn:Hurl; simpl.
    + destruct (http_post w1 _) as [w2 [response | e]]; simpl.
      * destruct (resp_json response) as [data | e]; simpl.
        -- destruct (negb (resp_ok response)); simpl.
           ++ destruct (http_error_message data); simpl; split; eauto.
           ++ split; eauto.
        -- split; eauto.
      * split; eauto.
    + split; eauto.
  - split; eauto.
Qed.

(** The stored URL is the one of the stored region, project and model. *)
Lemma APIClient_init_base_url (path model reg : string) (self : APIClient C) :
  APIClient_init path model reg = Ok self ->
  base_url self = endpoint_url (region self) (project_id self) (model_name self).
Proof.
  unfold APIClient_init, _setup_credentials.
  destruct path; [discriminate |].
  destruct (load_credentials _); simpl; [| discriminate].
  intros H. inversion H. reflexivity.
Qed.

(** C9: a per-call [config] only decides the URL of the request of that call.
    With a non-empty [config] the URL is built from its "model_name" and
    "region" entries, each falling back to the client's own field; the client's
    [model_name], [region], [base_url] and [project_id] are the same after the
    call, and a following call without a config posts to the stored
    [base_url]. *)
Theorem config_override_is_per_call
    (t : transport C W) (payload config payload2 config2 : json) :
  let t1 := fst (call_gemini_api t payload config) in
  let t2 := fst (call_gemini_api t1 payload2 config2) in
  (model_name (client t1) = model_name (client t) /\
   region (client t1) = region (client t) /\
   base_url (client t1) = base_url (client t) /\
   project_id (client t1) = project_id (client t)) /\
  (sent t1 = sent t
   \/ exists url headers,
        request_url (client t) config = Ok url /\
        sent t1 = sent t ++ [Request url headers payload]) /\
  (forall k v kv,
      config = JObj ((k, v) :: kv) ->
      request_url (client t) config
      = Ok (endpoint_url
              (fmt (default (JStr (region (client t)))
                      (dict_lookup "region" ((k, v) :: kv))))
              (project_id (client t))
              (fmt (default (JStr (model_name (client t)))
                      (dict_lookup "model_name" ((k, v) :: kv)))))) /\
  (truthy config2 = false ->
   sent t2 = sent t1
   \/ exists headers, sent t2 = sent t1 ++ [Request (base_url (client t)) headers payload2]).
Proof.
  intros t1 t2.
  destruct (call_gemini_api_effect t payload config) as [Hclient Hsent].
  fold t1 in Hclient, Hsent.
  assert (Hfields :
    model_name (client t1) = model_name (client t) /\
    region (client t1) = region (client t) /\
    base_url (client t1) = base_url (client t) /\
    project_id (client t1) = project_id (client t)).
  { destruct Hclient as [-> | [c ->]]; repeat split; reflexivity. }
  split; [exact Hfields |]. split; [exact Hsent |]. split.
  - intros k v kv ->. reflexivity.
  - intros Hfalsy.
    destruct (call_gemini_api_effect t1 payload2 config2) as [_ Hsent2].
    fold t2 in Hsent2.
    destruct Hsent2 as [H | (url & headers & Hurl & H)]; [left; exact H |].
    right. exists headers.
    unfold request_url in Hurl. rewrite Hfalsy in Hurl.
    inversion Hurl; subst url.
    destruct Hfields as (_ & _ & <- & _). exact H.
Qed.

(** *** The loop *)

Section CallProperties.

Variable payload : Payload.
Variable system_prompt : option string.
Variable json_format : bool.
Variable apply_json_format_later : bool.
Variable config : json.

Lemma process_parts_cons_next parts pos part rest count st st' :
  process_part payload system_prompt json_format apply_json_format_later config
    parts pos part count st = (st', Next) ->
  process_parts payload system_prompt json_format apply_json_format_later config
    parts pos (part :: rest) count st
  = process_parts payload system_prompt json_format apply_json_format_later config
      parts (S pos) rest count st'.
Proof. intros H. simpl. rewrite H. reflexivity. Qed.

Lemma conversation_loop_next fuel count st st' :
  loop_body payload system_prompt json_format apply_json_format_later config
    count st = (st', Next) ->
  conversation_loop payload system_prompt json_format apply_json_format_later config
    (S fuel) count st
  = conversation_loop payload system_prompt json_format apply_json_format_later config
      fuel (S count) st'.
Proof. intros H. simpl. rewrite H. reflexivity. Qed.

Lemma conversation_loop_return fuel count st st' v :
  loop_body payload system_prompt json_format apply_json_format_later config
    count st = (st', Return v) ->
  conversation_loop payload system_prompt json_format apply_json_format_later config
    (S fuel) count st = (st', Returned v).
Proof. intros H. simpl. rewrite H. reflexivity. Qed.

(** C3: a function call that names a tool the catalog does not have is
    answered in the transcript and does not end the call.  After the model's
    turn the next turn appended is a user turn whose function response carries
    the non-empty error message built around the tool's name; the part ends
    with [Next], so the remaining parts are processed from the new state (and
    with no part left the loop body ends with [Next] and the loop goes on). *)
Theorem unknown_tool_reported_and_loop_continues
    (parts : json) (pos : nat) (part fc tool_name : json) (rest : list json)
    (count : nat) (st : agent C W V) (transcript : list json) :
  py_getitem part "functionCall" = Ok fc ->
  py_getitem fc "name" = Ok tool_name ->
  has_tool tool_name = false ->
  heap st !! contents payload = Some transcript ->
  let error_msg :=
    "Model attempted to call unknown function '" +:+ fmt tool_name +:+ "'." in
  let st' :=
    append_at (contents payload)
      (turn "user" (error_response_part tool_name error_msg))
      (append_at (contents payload) (turn "model" part) st) in
  error_msg <> EmptyString /\
  heap st' !! contents payload
  = Some (transcript ++ [turn "model" part;
                         turn "user" (error_response_part tool_name error_msg)]) /\
  process_part payload system_prompt json_format apply_json_format_later config
    parts pos part count st = (st', Next) /\
  process_parts payload system_prompt json_format apply_json_format_later config
    parts pos (part :: rest) count st
  = process_parts payload system_prompt json_format apply_json_format_later config
      parts (S pos) rest count st' /\
  process_parts payload system_prompt json_format apply_json_format_later config
    parts pos [part] count st = (st', Next).
Proof.
  intros Hfc Hname Hunknown Hts error_msg st'.
  assert (Hstep : process_part payload system_prompt json_format
                    apply_json_format_later config parts pos part count st
                  = (st', Next)).
  { unfold process_part.
    rewrite (py_getitem_contains _ _ _ Hfc).
    unfold handle_function_call. rewrite Hfc. simpl.
    rewrite Hname. simpl.
    apply py_getitem_Ok in Hname as (kv & -> & _). simpl.
    rewrite Hunknown. reflexivity. }
  split; [discriminate |].
  split.
  - subst st'.
    rewrite (lookup_append_at _ _ _ (transcript ++ [turn "model" part])).
    + rewrite <- app_assoc. reflexivity.
    + apply lookup_append_at. exact Hts.
  - split; [exact Hstep |].
    split; [apply process_parts_cons_next; exact Hstep |].
    rewrite (process_parts_cons_next _ _ _ _ _ _ _ Hstep). reflexivity.
Qed.

(** C4, as the code has it: a registered tool that raises is reported in the
    transcript and does not end the call.  The user turn appended after the
    model's turn carries the error message built from the tool's name and the
    text of the exception; the part ends with [Next], so the remaining parts
    of the same content are processed from the new state, and when the failing
    call is the last part the parts are done without a return, which is when
    the loop turns to its next request. *)
Theorem failing_tool_reported_and_parts_continue
    (parts : json) (pos : nat) (part fc tool_name args : json) (rest : list json)
    (count : nat) (st : agent C W V) (transcript : list json)
    (ts : V * gmap string json) (e : string) :
  py_getitem part "functionCall" = Ok fc ->
  py_getitem fc "name" = Ok tool_name ->
  py_get_default fc "args" (JObj []) = Ok args ->
  has_tool tool_name = true ->
  execute_tool (variable_manager st, intermediate_results st) tool_name args
  = (ts, ToolRaised e) ->
  heap st !! contents payload = Some transcript ->
  let error_msg :=
    "Error during execution of tool '" +:+ fmt tool_name +:+ "': " +:+ e in
  let st' :=
    append_at (contents payload)
      (turn "user" (error_response_part tool_name error_msg))
      (set_tools_state (append_at (contents payload) (turn "model" part) st) ts) in
  heap st' !! contents payload
  = Some (transcript ++ [turn "model" part;
                         turn "user" (error_response_part tool_name error_msg)]) /\
  process_part payload system_prompt json_format apply_json_format_later config
    parts pos part count st = (st', Next) /\
  process_parts payload system_prompt json_format apply_json_format_later config
    parts pos (part :: rest) count st
  = process_parts payload system_prompt json_format apply_json_format_later config
      parts (S pos) rest count st' /\
  process_parts payload system_prompt json_format apply_json_format_later config
    parts pos [part] count st = (st', Next).
Proof.
  intros Hfc Hname Hargs Hknown Hexec Hts error_msg st'.
  assert (Hstep : process_part payload system_prompt json_format
                    apply_json_format_later config parts pos part count st
                  = (st', Next)).
  { unfold process_part.
    rewrite (py_getitem_contains _ _ _ Hfc).
    unfold handle_function_call. rewrite Hfc. simpl.
    rewrite Hname. simpl. rewrite Hargs. simpl.
    rewrite Hknown. simpl. rewrite Hexec. reflexivity. }
  split.
  - subst st'.
    rewrite (lookup_append_at _ _ _ (transcript ++ [turn "model" part])).
    + rewrite <- app_assoc. reflexivity.
    + exact (lookup_append_at _ _ _ _ Hts).
  - split; [exact Hstep |].
    split; [apply process_parts_cons_next; exact Hstep |].
    rewrite (process_parts_cons_next _ _ _ _ _ _ _ Hstep). reflexivity.
Qed.

(** C5: a response whose candidates are absent or empty ends the call with
    the error result, whatever the loop iteration.  The result carries the
    block reason, taken from "blockReason" when "promptFeedback" holds one and
    "Unknown" when "promptFeedback" is absent, and the feedback as details;
    nothing is raised.  The response is a JSON object, and a "promptFeedback"
    with a true truth value is an object, as the endpoint sends it. *)
Theorem blocked_response_returns_error
    (fuel count : nat) (st : agent C W V) (t1 : transport C W)
    (kv : list (string * json)) :
  call_gemini_api (api_client st) (payload_json (heap st) payload) config
  = (t1, Ok (JObj kv)) ->
  dict_lookup "candidates" kv = None \/ dict_lookup "candidates" kv = Some (JList []) ->
  (forall feedback,
      dict_lookup "promptFeedback" kv = Some feedback ->
      truthy feedback = true -> exists fkv, feedback = JObj fkv) ->
  exists block_reason : json,
    conversation_loop payload system_prompt json_format apply_json_format_later config
      (S fuel) count st
    = (set_api_client st t1,
       Returned
         (error_result
            [("message",
              JStr ("Request blocked by API. Reason: " +:+ fmt block_reason +:+ "."));
             ("details", default JNull (dict_lookup "promptFeedback" kv))])) /\
    (forall fkv b,
        dict_lookup "promptFeedback" kv = Some (JObj fkv) ->
        dict_lookup "blockReason" fkv = Some b -> block_reason = b) /\
    (dict_lookup "promptFeedback" kv = None -> block_reason = JStr "Unknown").
Proof.
  intros Hcall Hcand Hfb.
  assert (Hfalsy : truthy (default JNull (dict_lookup "candidates" kv)) = false).
  { destruct Hcand as [-> | ->]; reflexivity. }
  assert (Hloop : forall v,
             blocked_result (JObj kv) = Ok v ->
             conversation_loop payload system_prompt json_format
               apply_json_format_later config (S fuel) count st
             = (set_api_client st t1, Returned v)).
  { intros v Hv. apply conversation_loop_return.
    unfold loop_body. rewrite Hcall. unfold handle_response. simpl.
    rewrite Hfalsy. simpl. rewrite Hv. reflexivity. }
  destruct (dict_lookup "promptFeedback" kv) as [feedback |] eqn:Hlookup.
  - destruct (truthy feedback) eqn:Htruthy.
    + destruct (Hfb feedback eq_refl Htruthy) as [fkv ->].
      exists (default JNull (dict_lookup "blockReason" fkv)). split; [| split].
      * apply Hloop. unfold blocked_result. simpl py_get. simpl res_bind.
        rewrite Hlookup. simpl default. rewrite Htruthy. reflexivity.
      * intros fkv' b H Hb. inversion H; subst. rewrite Hb. reflexivity.
      * discriminate.
    + exists (JStr "Unknown"). split; [| split].
      * apply Hloop. unfold blocked_result. simpl py_get. simpl res_bind.
        rewrite Hlookup. simpl default. rewrite Htruthy. reflexivity.
      * intros fkv b H Hb. inversion H; subst.
        destruct fkv; [discriminate | discriminate].
      * discriminate.
  - exists (JStr "Unknown"). split; [| split].
    + apply Hloop. unfold blocked_result. simpl. rewrite Hlookup. reflexivity.
    + discriminate.
    + reflexivity.
Qed.

(** Outside that format: feedback that is true and not an object has no
    [get], and the exception leaves [prompt]. *)
Lemma blocked_result_needs_object_feedback
    (kv : list (string * json)) (feedback : json) :
  dict_lookup "promptFeedback" kv = Some feedback ->
  truthy feedback = true ->
  (forall fkv, feedback <> JObj fkv) ->
  blocked_result (JObj kv) = Raise AttributeError.
Proof.
  intros Hlookup Htruthy Hshape. unfold blocked_result. simpl.
  rewrite Hlookup. simpl. rewrite Htruthy.
  destruct feedback; try reflexivity. exfalso. eapply Hshape. reflexivity.
Qed.

(** *** From a part to the call

    The parts before a part are visited first; a part that returns ends the
    [for] loop, the loop body and the call with that value. *)

Lemma process_parts_app parts pos pre rest count st st1 :
  process_parts payload system_prompt json_format apply_json_format_later config
    parts pos pre count st = (st1, Next) ->
  process_parts payload system_prompt json_format apply_json_format_later config
    parts pos (pre ++ rest) count st
  = process_parts payload system_prompt json_format apply_json_format_later config
      parts (pos + length pre) rest count st1.
Proof.
  revert pos st. induction pre as [| p pre IH]; intros pos st H.
  - simpl in H. inversion H; subst. simpl. rewrite Nat.add_0_r. reflexivity.
  - simpl in H. simpl.
    destruct (process_part payload system_prompt json_format
                apply_json_format_later config parts pos p count st)
      as [st0 [| v | e]]; try discriminate.
    rewrite (IH _ _ H). f_equal. lia.
Qed.

Lemma part_return_ends_call
    fuel count st t1 response_data candidates candidate content parts pre part rest
    st1 st2 v :
  call_gemini_api (api_client st) (payload_json (heap st) payload) config
  = (t1, Ok response_data) ->
  py_get response_data "candidates" = Ok candidates ->
  truthy candidates = true ->
  py_getitem0 candidates = Ok candidate ->
  py_getitem candidate "content" = Ok content ->
  py_getitem content "parts" = Ok parts ->
  py_iter parts = Ok (pre ++ part :: rest) ->
  process_parts payload system_prompt json_format apply_json_format_later config
    parts 0 pre (S count) (set_api_client st t1) = (st1, Next) ->
  process_part payload system_prompt json_format apply_json_format_later config
    parts (length pre) part (S count) st1 = (st2, Return v) ->
  conversation_loop payload system_prompt json_format apply_json_format_later config
    (S fuel) count st = (st2, Returned v).
Proof.
  intros Hcall Hget Htruthy H0 Hcontent Hparts Hiter Hpre Hpart.
  apply conversation_loop_return.
  unfold loop_body. rewrite Hcall. unfold handle_response.
  rewrite Hget, Htruthy. simpl negb. cbv iota.
  unfold process_response.
  assert (Hc : py_getitem response_data "candidates" = Ok candidates).
  { destruct response_data; simpl in Hget; try discriminate.
    simpl. destruct (dict_lookup "candidates" kv) as [c |]; simpl in Hget.
    - inversion Hget. reflexivity.
    - inversion Hget; subst. discriminate. }
  rewrite Hc. simpl. rewrite H0. simpl. rewrite Hcontent. simpl.
  rewrite Hparts. simpl. rewrite Hiter. simpl.
  rewrite (process_parts_app _ _ _ _ _ _ _ Hpre). simpl.
  rewrite Hpart. reflexivity.
Qed.

(** C6: JSON requested and no tool registered.  A text part that is the
    final answer (no function call is found after it) ends the call with the
    value [json.loads] gives for its text, and with the text itself, unchanged
    and without an exception, when [json.loads] rejects it. *)
Theorem json_without_tools_parses_final_text
    (parts : json) (pos : nat) (part : json) (text : string) (count : nat)
    (st : agent C W V) :
  tools_json = [] ->
  py_contains "functionCall" part = Ok false ->
  py_getitem part "text" = Ok (JStr text) ->
  has_more_function_calls parts pos part = Ok false ->
  process_part payload system_prompt true (true && has_tools) config
    parts pos part count st
  = (st, Return (match json_loads text with
                 | Some value => value
                 | None => JStr text
                 end)).
Proof.
  intros Hnone Hcall Htext Hmore.
  unfold process_part. rewrite Hcall.
  rewrite (py_getitem_contains _ _ _ Htext).
  unfold handle_text. rewrite Htext. simpl. rewrite Hmore. simpl.
  unfold has_tools. rewrite Hnone. simpl.
  destruct (json_loads text); reflexivity.
Qed.

(** C1, at the input where the code departs from it: in the content
    [text "Done"; functionCall f; text "Done"] no function call remains
    after the third part, yet [index] finds the first, equal part, the slice
    taken after it holds the function call, and the third part is passed over
    instead of ending the loop. *)
Theorem repeated_text_is_not_final (count : nat) (st : agent C W V) :
  let text := JObj [("text", JStr "Done")] in
  let call := JObj [("functionCall", JObj [("name", JStr "f")])] in
  any_function_call (drop 3 [text; call; text]) = Ok false /\
  has_more_function_calls (JList [text; call; text]) 2 text = Ok true /\
  process_part payload system_prompt json_format apply_json_format_later config
    (JList [text; call; text]) 2 text count st = (st, Next).
Proof.
  intros text call. split; [reflexivity |]. split; reflexivity.
Qed.

(** C2, as the code has it: JSON requested with tools registered.  At the
    final text the transport is called exactly once more, with a payload that
    holds the transcript so far followed by a user turn asking to reformat the
    final text, and the structured-output directive; nothing else of the state
    changes.  The value returned is the parsed text of the reply when the
    call, the extraction of the text and the parsing all succeed, and the
    final text in every other case, a failed request included. *)
Theorem deferred_json_formatting
    (parts : json) (pos : nat) (part final_text : json) (count : nat)
    (st : agent C W V) (lines : list string) :
  has_tools = true ->
  tool_lines tools_json = Ok lines ->
  py_contains "functionCall" part = Ok false ->
  py_getitem part "text" = Ok final_text ->
  has_more_function_calls parts pos part = Ok false ->
  let generated :=
    system_prompt_text (join nl lines) (get_variables_info (variable_manager st)) in
  let request_payload := formatting_payload payload system_prompt st generated final_text in
  let reply := call_gemini_api (api_client st) request_payload config in
  exists value : json,
    process_part payload system_prompt true (true && has_tools) config
      parts pos part count st
    = (set_api_client st (fst reply), Return value) /\
    py_getitem request_payload "contents"
    = Ok (JList (deref (heap st) (contents payload)
                 ++ [turn "user"
                       (text_part
                          ("Based on our conversation above, please format your response as JSON. Here is the current response: "
                           +:+ fmt final_text))])) /\
    py_getitem request_payload "generationConfig"
    = Ok (JObj [("response_mime_type", JStr "application/json")]) /\
    (forall data s parsed,
        snd reply = Ok data -> structured_text_of data = Ok (JStr s) ->
        json_loads s = Some parsed -> value = parsed) /\
    (forall e, snd reply = Raise e -> value = final_text) /\
    ((forall data s parsed,
         snd reply = Ok data -> structured_text_of data = Ok (JStr s) ->
         json_loads s = Some parsed -> False) ->
     value = final_text).
Proof.
  intros Htools Hlines Hcall Htext Hmore generated request_payload reply.
  assert (Hstep :
    process_part payload system_prompt true (true && has_tools) config
      parts pos part count st
    = (set_api_client st (fst reply),
       Return (match (structured_response_data <-? snd reply ;;
                      structured_text <-? structured_text_of structured_response_data ;;
                      py_json_loads structured_text) with
               | Ok v => v
               | Raise _ => final_text
               end))).
  { unfold process_part. rewrite Hcall.
    rewrite (py_getitem_contains _ _ _ Htext).
    unfold handle_text. rewrite Htext. simpl. rewrite Hmore. simpl.
    rewrite Htools. simpl.
    unfold _format_as_json, _get_system_prompt. rewrite Hlines. simpl.
    fold generated. fold request_payload. fold reply.
    destruct reply as [t1 r]. simpl.
    destruct (structured_response_data <-? r ;;
              structured_text <-? structured_text_of structured_response_data ;;
              py_json_loads structured_text); reflexivity. }
  eexists. split; [exact Hstep |].
  split; [reflexivity |]. split; [reflexivity |].
  split; [| split].
  - intros data s parsed Hr Hs Hp. rewrite Hr. simpl. rewrite Hs. simpl.
    rewrite Hp. reflexivity.
  - intros e Hr. rewrite Hr. reflexivity.
  - intros Hno. destruct (snd reply) as [data | e] eqn:Hr; [| reflexivity]. simpl.
    destruct (structured_text_of data) as [t | e] eqn:Hs; [| reflexivity]. simpl.
    destruct t; try reflexivity. simpl.
    destruct (json_loads s) as [parsed |] eqn:Hp; [| reflexivity].
    exfalso. exact (Hno _ _ _ eq_refl Hs Hp).
Qed.

(** *** Invariants of a run *)

Section Invariant.

Variable base : list json.
Variable ok : request -> Prop.

Hypothesis ok_loop_request :
  forall st url headers,
    starts_with (contents payload) base st ->
    ok (Request url headers (payload_json (heap st) payload)).

Hypothesis ok_formatting_request :
  forall st url headers generated final_text,
    starts_with (contents payload) base st ->
    ok (Request url headers
          (formatting_payload payload system_prompt st generated final_text)).

Lemma grows_refl st :
  starts_with (contents payload) base st -> grows (contents payload) base ok st st.
Proof.
  intros H. split; [exact H |]. split; [reflexivity |]. split; [reflexivity |].
  exists []. rewrite app_nil_r. split; [reflexivity | constructor].
Qed.

Lemma grows_trans st st1 st2 :
  grows (contents payload) base ok st st1 ->
  grows (contents payload) base ok st1 st2 ->
  grows (contents payload) base ok st st2.
Proof.
  intros (_ & Hd1 & Hf1 & new1 & Hs1 & Hok1) (Hi2 & Hd2 & Hf2 & new2 & Hs2 & Hok2).
  split; [exact Hi2 |]. split; [congruence |]. split.
  - intros l' Hl'. rewrite (Hf2 _ Hl'). apply Hf1. exact Hl'.
  - exists (new1 ++ new2). split.
    + rewrite Hs2, Hs1, app_assoc. reflexivity.
    + apply Forall_app. split; assumption.
Qed.

Lemma grows_append x st :
  starts_with (contents payload) base st ->
  grows (contents payload) base ok st (append_at (contents payload) x st).
Proof.
  intros [more H]. split.
  - exists (more ++ [x]). rewrite (lookup_append_at _ _ _ _ H), app_assoc.
    reflexivity.
  - split; [apply dom_append_at |]. split.
    + intros l' Hl'. apply lookup_append_at_ne. congruence.
    + exists []. rewrite app_nil_r. split; [reflexivity | constructor].
Qed.

Lemma grows_tools ts st :
  starts_with (contents payload) base st ->
  grows (contents payload) base ok st (set_tools_state st ts).
Proof.
  intros H. split; [exact H |]. split; [reflexivity |]. split; [reflexivity |].
  exists []. rewrite app_nil_r. split; [reflexivity | constructor].
Qed.

Lemma grows_call st body :
  starts_with (contents payload) base st ->
  (forall url headers, ok (Request url headers body)) ->
  grows (contents payload) base ok st
    (set_api_client st (fst (call_gemini_api (api_client st) body config))).
Proof.
  intros H Hok. split; [exact H |]. split; [reflexivity |].
  split; [reflexivity |].
  destruct (call_gemini_api_effect (api_client st) body config) as [_ Hsent].
  simpl in Hsent. simpl.
  destruct Hsent as [-> | (url & headers & _ & ->)].
  - exists []. rewrite app_nil_r. split; [reflexivity | constructor].
  - eexists. split; [reflexivity |]. constructor; [apply Hok | constructor].
Qed.

Lemma grows_format_as_json st final_text count st' sig :
  starts_with (contents payload) base st ->
  _format_as_json payload system_prompt config st final_text count = (st', sig) ->
  grows (contents payload) base ok st st'.
Proof.
  intros H. unfold _format_as_json.
  destruct (_get_system_prompt st) as [generated | e].
  - pose proof (grows_call st (formatting_payload payload system_prompt st generated
                                 final_text) H) as Hcall.
    destruct (call_gemini_api (api_client st) _ config) as [t1 r]. simpl in Hcall.
    intros Heq.
    assert (st' = set_api_client st t1) as ->.
    { destruct (structured_response_data <-? r ;;
                structured_text <-? structured_text_of structured_response_data ;;
                py_json_loads structured_text); inversion Heq; reflexivity. }
    apply Hcall. intros url headers. apply ok_formatting_request. exact H.
  - intros Heq. inversion Heq; subst. apply grows_refl. exact H.
Qed.

Lemma grows_handle_function_call part st st' sig :
  starts_with (contents payload) base st ->
  handle_function_call payload part st = (st', sig) ->
  grows (contents payload) base ok st st'.
Proof.
  intros H. unfold handle_function_call.
  pose proof (grows_append (turn "model" part) st H) as G1.
  set (st1 := append_at (contents payload) (turn "model" part) st) in *.
  assert (H1 : starts_with (contents payload) base st1) by apply G1.
  destruct (fc <-? py_getitem part "functionCall" ;;
            tool_name <-? py_getitem fc "name" ;;
            args <-? py_get_default fc "args" (JObj []) ;;
            Ok (tool_name, args)) as [[tool_name args] | e].
  - destruct (has_tool tool_name); simpl.
    + destruct (execute_tool _ tool_name args) as [ts [result name | msg]];
        intros Heq; inversion Heq; subst; clear Heq.
      * pose proof (grows_tools ts st1 H1) as G2.
        eapply grows_trans; [exact G1 |].
        eapply grows_trans; [exact G2 |].
        eapply grows_trans; [apply grows_append; apply G2 |].
        apply grows_append. apply grows_append. apply G2.
      * pose proof (grows_tools ts st1 H1) as G2.
        eapply grows_trans; [exact G1 |].
        eapply grows_trans; [exact G2 |].
        apply grows_append. apply G2.
    + intros Heq; inversion Heq; subst.
      eapply grows_trans; [exact G1 |]. apply grows_append. exact H1.
  - intros Heq; inversion Heq; subst. exact G1.
Qed.

Lemma grows_process_part parts pos part count st st' sig :
  starts_with (contents payload) base st ->
  process_part payload system_prompt json_format apply_json_format_later config
    parts pos part count st = (st', sig) ->
  grows (contents payload) base ok st st'.
Proof.
  intros H. unfold process_part.
  destruct (py_contains "functionCall" part) as [[|] | e].
  - apply grows_handle_function_call. exact H.
  - destruct (py_contains "text" part) as [[|] | e].
    + unfold handle_text.
      destruct (final_text <-? py_getitem part "text" ;;
                more <-? has_more_function_calls parts pos part ;;
                Ok (final_text, more)) as [[final_text [|]] | e].
      * intros Heq; inversion Heq; subst. apply grows_refl. exact H.
      * destruct apply_json_format_later.
        -- apply grows_format_as_json. exact H.
        -- destruct json_format.
           ++ destruct (py_json_loads final_text) as [v | []];
                intros Heq; inversion Heq; subst; apply grows_refl; exact H.
           ++ intros Heq; inversion Heq; subst. apply grows_refl. exact H.
      * intros Heq; inversion Heq; subst. apply grows_refl. exact H.
    + intros Heq; inversion Heq; subst. apply grows_refl. exact H.
    + intros Heq; inversion Heq; subst. apply grows_refl. exact H.
  - intros Heq; inversion Heq; subst. apply grows_refl. exact H.
Qed.

Lemma grows_process_parts parts rest : forall pos count st st' sig,
  starts_with (contents payload) base st ->
  process_parts payload system_prompt json_format apply_json_format_later config
    parts pos rest count st = (st', sig) ->
  grows (contents payload) base ok st st'.
Proof.
  induction rest as [| part rest IH]; intros pos count st st' sig H; simpl.
  - intros Heq; inversion Heq; subst. apply grows_refl. exact H.
  - destruct (process_part payload system_prompt json_format
                apply_json_format_later config parts pos part count st)
      as [st1 sig1] eqn:Hpart.
    pose proof (grows_process_part _ _ _ _ _ _ _ H Hpart) as G1.
    destruct sig1; intros Heq.
    + eapply grows_trans; [exact G1 |]. eapply IH; [apply G1 | exact Heq].
    + inversion Heq; subst. exact G1.
    + inversion Heq; subst. exact G1.
Qed.

Lemma grows_handle_response response_data count st st' sig :
  starts_with (contents payload) base st ->
  handle_response payload system_prompt json_format apply_json_format_later config
    response_data count st = (st', sig) ->
  grows (contents payload) base ok st st'.
Proof.
  intros H. unfold handle_response.
  destruct (py_get response_data "candidates") as [candidates | e].
  - destruct (negb (truthy candidates)).
    + destruct (blocked_result response_data);
        intros Heq; inversion Heq; subst; apply grows_refl; exact H.
    + unfold process_response.
      destruct (candidates0 <-? py_getitem response_data "candidates" ;;
                candidate <-? py_getitem0 candidates0 ;;
                content <-? py_getitem candidate "content" ;;
                parts <-? py_getitem content "parts" ;;
                items <-? py_iter parts ;;
                Ok (parts, items)) as [[parts items] | e].
      * destruct (process_parts payload system_prompt json_format
                    apply_json_format_later config parts 0 items count st)
          as [st1 sig1] eqn:Hparts.
        pose proof (grows_process_parts _ _ _ _ _ _ _ H Hparts) as G.
        unfold catch_parse_errors.
        destruct sig1 as [| v | []]; intros Heq; inversion Heq; subst; exact G.
      * unfold catch_parse_errors.
        destruct e; intros Heq; inversion Heq; subst; apply grows_refl; exact H.
  - intros Heq; inversion Heq; subst. apply grows_refl. exact H.
Qed.

Lemma grows_loop_body count st st' sig :
  starts_with (contents payload) base st ->
  loop_body payload system_prompt json_format apply_json_format_later config
    count st = (st', sig) ->
  grows (contents payload) base ok st st'.
Proof.
  intros H. unfold loop_body.
  pose proof (grows_call st (payload_json (heap st) payload) H) as Hcall.
  destruct (call_gemini_api (api_client st) _ config) as [t1 r]. simpl in Hcall.
  assert (G1 : grows (contents payload) base ok st (set_api_client st t1)).
  { apply Hcall. intros url headers. apply ok_loop_request. exact H. }
  destruct r as [response_data | e].
  - intros Heq. eapply grows_trans; [exact G1 |].
    eapply grows_handle_response; [apply G1 | exact Heq].
  - destruct e; intros Heq; inversion Heq; subst; exact G1.
Qed.

Lemma grows_conversation_loop fuel : forall count st st' out,
  starts_with (contents payload) base st ->
  conversation_loop payload system_prompt json_format apply_json_format_later config
    fuel count st = (st', out) ->
  grows (contents payload) base ok st st'.
Proof.
  induction fuel as [| fuel IH]; intros count st st' out H; simpl.
  - intros Heq; inversion Heq; subst. apply grows_refl. exact H.
  - destruct (loop_body payload system_prompt json_format apply_json_format_later
                config count st) as [st1 sig1] eqn:Hbody.
    pose proof (grows_loop_body _ _ _ _ H Hbody) as G1.
    destruct sig1; intros Heq.
    + eapply grows_trans; [exact G1 |]. eapply IH; [apply G1 | exact Heq].
    + inversion Heq; subst. exact G1.
    + inversion Heq; subst. exact G1.
Qed.

End Invariant.

End CallProperties.

(** *** The call as a whole *)

Lemma payload_json_no_tool_fields h p url headers :
  tools p = None -> toolConfig p = None ->
  no_tool_fields (Request url headers (payload_json h p)).
Proof.
  intros Ht Hc. unfold no_tool_fields, payload_json. simpl. rewrite Ht, Hc. simpl.
  destruct (generationConfig p); split; reflexivity.
Qed.

Lemma payload_json_carries h p base more url headers :
  h !! contents p = Some (base ++ more) ->
  carries base (Request url headers (payload_json h p)).
Proof.
  intros H. exists more. unfold payload_json, deref. simpl. rewrite H. reflexivity.
Qed.

Lemma build_payload_without_tools system_prompt json_format generated l :
  tools_json = [] ->
  tools (build_payload system_prompt json_format generated l) = None /\
  toolConfig (build_payload system_prompt json_format generated l) = None.
Proof.
  intros H. unfold build_payload, has_tools. rewrite H. split; reflexivity.
Qed.

(** Where the contents of a call live: the caller's list when it is given and
    not empty, a new empty list otherwise. *)
Lemma choose_contents_spec conversation_history (st : agent C W V) :
  let l := fst (choose_contents conversation_history st) in
  let st1 := snd (choose_contents conversation_history st) in
  api_client st1 = api_client st /\
  variable_manager st1 = variable_manager st /\
  intermediate_results st1 = intermediate_results st /\
  ((exists x xs, conversation_history = Some l /\ st1 = st /\
                 heap st !! l = Some (x :: xs))
   \/ (heap st !! l = None /\ heap st1 = <[l := []]> (heap st))).
Proof.
  assert (Hnew :
    heap st !! fst (new_list st) = None /\
    heap (snd (new_list st)) = <[fst (new_list st) := []]> (heap st)).
  { unfold new_list. simpl. split; [| reflexivity].
    apply not_elem_of_dom. apply is_fresh. }
  unfold choose_contents.
  destruct conversation_history as [l0 |]; simpl.
  - unfold deref. destruct (heap st !! l0) as [[| x xs] |] eqn:Hl0; simpl.
    + repeat split; try reflexivity. right. exact Hnew.
    + repeat split; try reflexivity. left. exists x, xs. auto.
    + repeat split; try reflexivity. right. exact Hnew.
  - repeat split; try reflexivity. right. exact Hnew.
Qed.

(** C7: with no tool registered, no request of a call has a "tools" or a
    "toolConfig" entry: the payload is built without them and every request
    posted during the call lacks both keys. *)
Theorem no_tools_no_tool_fields
    (st : agent C W V) (user_prompt : string) (system_prompt : option string)
    (json_format : bool) (conversation_history : option loc) (config : option json)
    (fuel : nat) :
  tools_json = [] ->
  let st' :=
    fst (prompt st user_prompt system_prompt json_format conversation_history
           config fuel) in
  (forall generated l,
      tools (build_payload system_prompt json_format generated l) = None /\
      toolConfig (build_payload system_prompt json_format generated l) = None) /\
  exists new,
    sent (api_client st') = sent (api_client st) ++ new /\
    Forall no_tool_fields new.
Proof.
  intros Hnone st'. split.
  { intros generated l. apply build_payload_without_tools. exact Hnone. }
  subst st'. unfold prompt.
  pose proof (choose_contents_spec conversation_history (set_intermediate_results st ∅))
    as (Hapi & _ & _ & Hheap).
  destruct (choose_contents conversation_history (set_intermediate_results st ∅))
    as [l st1]. simpl in Hapi, Hheap.
  destruct (_get_system_prompt st1) as [generated | e]; simpl.
  - set (p := build_payload system_prompt json_format generated l).
    set (st2 := append_at l (turn "user" (text_part user_prompt)) st1).
    destruct (conversation_loop p system_prompt json_format (json_format && has_tools)
                (default (JObj []) config) fuel 0 st2) as [st3 out] eqn:Hloop.
    simpl.
    assert (Hstart : starts_with (contents p) (deref (heap st2) l) st2).
    { assert (Hsome : exists xs, heap st1 !! l = Some xs).
      { destruct Hheap as [(x & xs & _ & Heq & Hl) | [_ Hh]].
        - exists (x :: xs). rewrite Heq. exact Hl.
        - exists []. rewrite Hh. apply lookup_insert_eq. }
      destruct Hsome as [xs Hxs]. exists []. rewrite app_nil_r.
      unfold deref. subst st2. change (contents p) with l.
      rewrite (lookup_append_at _ _ _ _ Hxs). reflexivity. }
    destruct (build_payload_without_tools system_prompt json_format generated l Hnone)
      as [Ht Hc].
    pose proof (grows_conversation_loop p system_prompt json_format
                  (json_format && has_tools) (default (JObj []) config)
                  (deref (heap st2) l) no_tool_fields) as G.
    destruct (G (fun s u h _ => payload_json_no_tool_fields (heap s) p u h Ht Hc)
                (fun s u h g f _ => conj eq_refl eq_refl)
                fuel 0 st2 st3 out Hstart Hloop) as (_ & _ & _ & new & Hsent & Hok).
    exists new. split; [| exact Hok].
    rewrite Hsent. subst st2. simpl. rewrite Hapi. reflexivity.
  - exists []. rewrite app_nil_r. split; [| constructor].
    rewrite Hapi. reflexivity.
Qed.

(** C10: a non-empty prior transcript is not copied.  The payload's contents
    are the caller's list object itself; after the call that list holds what it
    held before, then the user prompt, then whatever the call appended; no
    list object was created and no other one was touched; and every request
    of the call carried the caller's list as it stood, from the old turns and
    the user prompt on.  The tool declarations have a name and a description,
    so that the system prompt is built. *)
Theorem caller_transcript_mutated_in_place
    (st : agent C W V) (user_prompt : string) (system_prompt : option string)
    (json_format : bool) (l : loc) (turn0 : json) (turns : list json)
    (config : option json) (fuel : nat) (lines : list string) :
  heap st !! l = Some (turn0 :: turns) ->
  tool_lines tools_json = Ok lines ->
  let history := turn0 :: turns in
  let user_turn := turn "user" (text_part user_prompt) in
  let st' :=
    fst (prompt st user_prompt system_prompt json_format (Some l) config fuel) in
  choose_contents (Some l) (set_intermediate_results st ∅)
  = (l, set_intermediate_results st ∅) /\
  (forall generated,
      contents (build_payload system_prompt json_format generated l) = l) /\
  (exists appended, heap st' !! l = Some (history ++ user_turn :: appended)) /\
  dom (heap st') = dom (heap st) /\
  (forall l', l' <> l -> heap st' !! l' = heap st !! l') /\
  exists new,
    sent (api_client st') = sent (api_client st) ++ new /\
    Forall (carries (history ++ [user_turn])) new.
Proof.
  intros Hl Hlines history user_turn st'.
  assert (Hchoose : choose_contents (Some l) (set_intermediate_results st ∅)
                    = (l, set_intermediate_results st ∅)).
  { unfold choose_contents, deref. simpl. rewrite Hl. reflexivity. }
  split; [exact Hchoose |]. split; [reflexivity |].
  subst st'. unfold prompt. rewrite Hchoose.
  unfold _get_system_prompt. rewrite Hlines. simpl.
  set (generated := system_prompt_text _ _).
  set (p := build_payload system_prompt json_format generated l).
  set (st2 := append_at l _ (set_intermediate_results st ∅)).
  destruct (conversation_loop p system_prompt json_format (json_format && has_tools)
              (default (JObj []) config) fuel 0 st2) as [st3 out] eqn:Hloop.
  simpl.
  assert (Hstart : starts_with (contents p) (history ++ [user_turn]) st2).
  { exists []. rewrite app_nil_r. apply lookup_append_at. exact Hl. }
  pose proof (grows_conversation_loop p system_prompt json_format
                (json_format && has_tools) (default (JObj []) config)
                (history ++ [user_turn]) (carries (history ++ [user_turn]))) as G.
  destruct (G (fun s u h Hs =>
                 match Hs with
                 | ex_intro _ more Hm => payload_json_carries (heap s) p _ more u h Hm
                 end)) with (fuel := fuel) (count := 0) (st := st2) (st' := st3)
                            (out := out)
    as (Hfinal & Hdom & Hframe & new & Hsent & Hok); try assumption.
  { intros s u h g f [more Hm]. exists (more ++ [turn "user"
       (text_part (formatting_request_text f))]).
    unfold formatting_payload, deref. simpl. change (contents p) with l in Hm |- *.
    rewrite Hm. simpl. rewrite <- app_assoc. reflexivity. }
  split.
  { destruct Hfinal as [more Hm]. exists more. change (contents p) with l in Hm.
    simpl. rewrite Hm. rewrite <- app_assoc. reflexivity. }
  split.
  { simpl. rewrite Hdom. subst st2. rewrite dom_append_at. reflexivity. }
  split.
  { intros l' Hl'. change (contents p) with l in Hframe. simpl.
    rewrite (Hframe _ Hl'). subst st2.
    rewrite lookup_append_at_ne by congruence. reflexivity. }
  exists new. split; [| exact Hok]. simpl. rewrite Hsent. reflexivity.
Qed.

(** C8: [prompt] empties [_intermediate_results] before anything else.  The
    outcome of a call and the state it leaves do not depend on what
    [_intermediate_results] held before; and the call either stops while
    building the system prompt or is the run of the loop from a state in which
    [_intermediate_results] is empty while the API client (no request posted
    yet) and the variable manager (no tool executed yet) are as they were
    before the call. *)
Theorem prompt_resets_intermediate_results
    (st : agent C W V) (stale : gmap string json) (user_prompt : string)
    (system_prompt : option string) (json_format : bool)
    (conversation_history : option loc) (config : option json) (fuel : nat) :
  prompt (set_intermediate_results st stale) user_prompt system_prompt json_format
    conversation_history config fuel
  = prompt st user_prompt system_prompt json_format conversation_history config fuel /\
  exists st2,
    intermediate_results st2 = ∅ /\
    api_client st2 = api_client st /\
    variable_manager st2 = variable_manager st /\
    ((exists e,
         prompt st user_prompt system_prompt json_format conversation_history
           config fuel = (st2, Raised e))
     \/ (exists p,
            prompt st user_prompt system_prompt json_format conversation_history
              config fuel
            = conversation_loop p system_prompt json_format (json_format && has_tools)
                (default (JObj []) config) fuel 0 st2)).
Proof.
  split; [reflexivity |].
  unfold prompt.
  pose proof (choose_contents_spec conversation_history (set_intermediate_results st ∅))
    as (Hapi & Hvm & Hir & _).
  destruct (choose_contents conversation_history (set_intermediate_results st ∅))
    as [l st1]. simpl in Hapi, Hvm, Hir.
  destruct (_get_system_prompt st1) as [generated | e].
  - exists (append_at l (turn "user" (text_part user_prompt)) st1).
    repeat split; try assumption. right. eexists. reflexivity.
  - exists st1. repeat split; try assumption. left. exists e. reflexivity.
Qed.

(** ** Further properties *)

(** *** Building and re-targeting the client *)

(** [APIClient(...)] refuses an empty key path; a client that was built has
    the fields it was given, the project of its credentials, and a [base_url]
    that is the endpoint of exactly these, so that overriding the model and
    region by the client's own values gives the URL of a call without
    config. *)
Theorem init_client_posts_to_own_endpoint (path model reg : string) :
  APIClient_init EmptyString model reg = Raise ValueError /\
  forall self,
    APIClient_init path model reg = Ok self ->
    path <> EmptyString /\
    key_path self = path /\ model_name self = model /\ region self = reg /\
    project_id self = creds_project_id (creds self) /\
    base_url self = endpoint_url reg (project_id self) model /\
    request_url self (JObj [("model_name", JStr model); ("region", JStr reg)])
    = Ok (base_url self).
Proof.
  split; [reflexivity |].
  intros self. unfold APIClient_init, _setup_credentials.
  destruct path; [discriminate |].
  destruct (load_credentials _); simpl; [| discriminate].
  intros H. inversion H; subst. simpl. repeat split; try reflexivity.
  discriminate.
Qed.

(** [set_project] never changes the model or the region.  When it succeeds
    the key path, the project and the [base_url] are those of the new
    credentials; when it raises, the project, the [base_url] and the
    credentials in use are the old ones, and the key path is the new one unless
    it was empty. *)
Theorem set_project_keeps_model_and_region (self : APIClient C) (path : string) :
  let self' := fst (set_project self path) in
  model_name self' = model_name self /\
  region self' = region self /\
  (snd (set_project self path) = Ok tt ->
   path <> EmptyString /\
   key_path self' = path /\
   project_id self' = creds_project_id (creds self') /\
   base_url self'
   = endpoint_url (region self) (project_id self') (model_name self)) /\
  (forall e,
      snd (set_project self path) = Raise e ->
      project_id self' = project_id self /\
      base_url self' = base_url self /\
      creds self' = creds self /\
      (path = EmptyString -> self' = self) /\
      (path <> EmptyString -> key_path self' = path)).
Proof.
  unfold set_project, _setup_credentials.
  destruct path as [| c path]; simpl.
  - repeat split; try reflexivity; try discriminate. congruence.
  - destruct (load_credentials (String c path)); simpl.
    + repeat split; try reflexivity; discriminate.
    + repeat split; try reflexivity; discriminate.
Qed.

(** *** What a transport call can return *)

(** A call returns data only after it refreshed the credentials, posted
    exactly one request with the fresh bearer token, and got a reply with a
    success status whose body is that data. *)
Theorem call_returns_only_ok_bodies
    (t t' : transport C W) (payload config data : json) :
  call_gemini_api t payload config = (t', Ok data) ->
  exists w1 c1 url w2 response,
    creds_refresh (creds (client t)) (net t) = (w1, Ok c1) /\
    request_url (client t) config = Ok url /\
    http_post w1
      (Request url
         [("Authorization", "Bearer " +:+ fmt (creds_token c1));
          ("Content-Type", "application/json")] payload)
    = (w2, Ok response) /\
    resp_ok response = true /\
    resp_json response = Ok data /\
    t' = mkTransport (set_creds (client t) c1) w2
           (sent t
            ++ [Request url
                  [("Authorization", "Bearer " +:+ fmt (creds_token c1));
                   ("Content-Type", "application/json")] payload]).
Proof.
  unfold call_gemini_api.
  destruct (creds_refresh (creds (client t)) (net t)) as [w1 [c1 | e]] eqn:Hr;
    [| discriminate].
  rewrite request_url_set_creds.
  destruct (request_url (client t) config) as [url | e] eqn:Hu; [| discriminate].
  destruct (http_post w1 _) as [w2 [response | e]] eqn:Hp; [| discriminate].
  destruct (resp_json response) as [body | e] eqn:Hb; [| discriminate].
  destruct (resp_ok response) eqn:Hok; simpl.
  - intros H. inversion H; subst.
    exists w1, c1, url, w2, response. repeat split; try assumption; reflexivity.
  - destruct (http_error_message body); discriminate.
Qed.

(** The message of the [HTTPError] for a body that is an object with an
    object, or nothing, under "error". *)
Lemma http_error_message_of_object (kv : list (string * json)) :
  (forall e, dict_lookup "error" kv = Some e -> exists ekv, e = JObj ekv) ->
  let ekv :=
    match dict_lookup "error" kv with
    | Some (JObj ekv) => ekv
    | _ => []
    end in
  let message :=
    "Gemini API Error: "
    +:+ fmt (default (JStr "Unknown error") (dict_lookup "message" ekv)) in
  http_error_message (JObj kv)
  = Ok (match dict_lookup "details" ekv with
        | Some details => message +:+ nl +:+ "Details: " +:+ fmt details
        | None => message
        end).
Proof.
  intros Hshape ekv message.
  unfold http_error_message. simpl. subst message ekv.
  destruct (dict_lookup "error" kv) as [e |] eqn:He; simpl.
  - destruct (Hshape e eq_refl) as [ekv ->]. simpl.
    unfold dict_has. destruct (dict_lookup "details" ekv); reflexivity.
  - reflexivity.
Qed.

(** A reply with a non-success status whose body is an object, with an
    object (or nothing) under "error", raises [HTTPError] after the request was
    posted.  The message is "Gemini API Error: " and the "message" of the
    error, "Unknown error" when there is none, followed on a new line by
    "Details: " and the "details" when the error has that key. *)
Theorem failed_status_raises_http_error
    (t : transport C W) (payload config : json) (w1 w2 : W) (c1 : C) (url : string)
    (kv : list (string * json)) :
  creds_refresh (creds (client t)) (net t) = (w1, Ok c1) ->
  request_url (client t) config = Ok url ->
  http_post w1
    (Request url
       [("Authorization", "Bearer " +:+ fmt (creds_token c1));
        ("Content-Type", "application/json")] payload)
  = (w2, Ok (HttpResponse false (Ok (JObj kv)))) ->
  (forall e, dict_lookup "error" kv = Some e -> exists ekv, e = JObj ekv) ->
  let ekv :=
    match dict_lookup "error" kv with
    | Some (JObj ekv) => ekv
    | _ => []
    end in
  let message :=
    "Gemini API Error: "
    +:+ fmt (default (JStr "Unknown error") (dict_lookup "message" ekv)) in
  call_gemini_api t payload config
  = (mkTransport (set_creds (client t) c1) w2
       (sent t
        ++ [Request url
              [("Authorization", "Bearer " +:+ fmt (creds_token c1));
               ("Content-Type", "application/json")] payload]),
     Raise (HTTPError
              (match dict_lookup "details" ekv with
               | Some details => message +:+ nl +:+ "Details: " +:+ fmt details
               | None => message
               end))).
Proof.
  intros Hr Hu Hp Hshape ekv message.
  unfold call_gemini_api. rewrite Hr, request_url_set_creds, Hu, Hp. simpl.
  rewrite (http_error_message_of_object kv Hshape). reflexivity.
Qed.

(** *** One reply in the loop *)

(** What an iteration does with a reply of the documented shape: its parts
    are processed in order, a [KeyError] or [IndexError] on the way becomes the
    error result, and only [Next] leads to another iteration. *)
Lemma loop_on_parts payload system_prompt json_format apply_json_format_later config
    fuel count st t1 response_data items :
  call_gemini_api (api_client st) (payload_json (heap st) payload) config
  = (t1, Ok response_data) ->
  has_parts response_data items ->
  conversation_loop payload system_prompt json_format apply_json_format_later config
    (S fuel) count st
  = match catch_parse_errors response_data
            (process_parts payload system_prompt json_format
               apply_json_format_later config (JList items) 0 items (S count)
               (set_api_client st t1)) with
    | (st', Next) =>
        conversation_loop payload system_prompt json_format apply_json_format_later
          config fuel (S count) st'
    | (st', Return v) => (st', Returned v)
    | (st', Throw e) => (st', Raised e)
    end.
Proof.
  intros Hcall (kv & ckv & others & cokv & -> & Hcand & Hcontent & Hparts).
  simpl. unfold loop_body. rewrite Hcall. unfold handle_response. simpl.
  rewrite Hcand. simpl. unfold process_response. simpl.
  rewrite Hcand. simpl. rewrite Hcontent. simpl. rewrite Hparts. simpl.
  reflexivity.
Qed.

Section LoopProperties.

Variable payload : Payload.
Variable system_prompt : option string.
Variable json_format : bool.
Variable apply_json_format_later : bool.
Variable config : json.

(** A refused request ends the call with an error result, not an exception:
    when the endpoint answers with a non-success status and an error message,
    [prompt]'s loop returns [{"error": {"message": "Gemini API Error: ..."}}]
    and leaves the transcript as it was. *)
Theorem endpoint_failure_becomes_error_result
    (fuel count : nat) (st : agent C W V) (w1 w2 : W) (c1 : C) (url : string)
    (kv ekv : list (string * json)) (m : json) :
  creds_refresh (creds (client (api_client st))) (net (api_client st)) = (w1, Ok c1) ->
  request_url (client (api_client st)) config = Ok url ->
  http_post w1
    (Request url
       [("Authorization", "Bearer " +:+ fmt (creds_token c1));
        ("Content-Type", "application/json")]
       (payload_json (heap st) payload))
  = (w2, Ok (HttpResponse false (Ok (JObj kv)))) ->
  dict_lookup "error" kv = Some (JObj ekv) ->
  dict_lookup "message" ekv = Some m ->
  dict_lookup "details" ekv = None ->
  exists st',
    conversation_loop payload system_prompt json_format apply_json_format_later config
      (S fuel) count st
    = (st', Returned (error_result [("message", JStr ("Gemini API Error: " +:+ fmt m))])) /\
    heap st' = heap st /\
    length (sent (api_client st')) = S (length (sent (api_client st))).
Proof.
  intros Hr Hu Hp He Hm Hd.
  assert (Hmsg : http_error_message (JObj kv) = Ok ("Gemini API Error: " +:+ fmt m)).
  { rewrite http_error_message_of_object.
    - rewrite He. simpl. rewrite Hm, Hd. reflexivity.
    - intros e H. rewrite He in H. inversion H. eauto. }
  eexists. split; [| split].
  - simpl. unfold loop_body, call_gemini_api.
    rewrite Hr, request_url_set_creds, Hu, Hp. simpl. rewrite Hmsg. reflexivity.
  - reflexivity.
  - simpl. rewrite length_app. simpl. lia.
Qed.

(** A reply without the expected fields ends the call with an error result
    that carries the raw reply: a first candidate without "content", or a
    content without "parts", gives "Error parsing API response: " and the
    missing key in quotes. *)
Theorem malformed_response_becomes_error_result
    (fuel count : nat) (st : agent C W V) (t1 : transport C W)
    (kv ckv : list (string * json)) (others : list json) (key : string) :
  call_gemini_api (api_client st) (payload_json (heap st) payload) config
  = (t1, Ok (JObj kv)) ->
  dict_lookup "candidates" kv = Some (JList (JObj ckv :: others)) ->
  (dict_lookup "content" ckv = None /\ key = "content")
  \/ (exists cokv, dict_lookup "content" ckv = Some (JObj cokv) /\
                   dict_lookup "parts" cokv = None /\ key = "parts") ->
  conversation_loop payload system_prompt json_format apply_json_format_later config
    (S fuel) count st
  = (set_api_client st t1,
     Returned
       (error_result
          [("message", JStr ("Error parsing API response: '" +:+ key +:+ "'"));
           ("details", JObj kv)])).
Proof.
  intros Hcall Hcand Hmissing.
  simpl. unfold loop_body. rewrite Hcall. unfold handle_response. simpl.
  rewrite Hcand. simpl. unfold process_response. simpl. rewrite Hcand. simpl.
  destruct Hmissing as [[Hc ->] | (cokv & Hc & Hp & ->)]; rewrite Hc; simpl.
  - reflexivity.
  - rewrite Hp. reflexivity.
Qed.

(** A function call without a "name" ends the call with the error result
    for the missing key, after the model's turn was already appended: the
    transcript is left with a function call that has no response. *)
Theorem call_without_name_ends_call
    (fuel count : nat) (st : agent C W V) (t1 : transport C W)
    (response_data part : json) (fkv : list (string * json)) (rest transcript : list json) :
  call_gemini_api (api_client st) (payload_json (heap st) payload) config
  = (t1, Ok response_data) ->
  has_parts response_data (part :: rest) ->
  py_getitem part "functionCall" = Ok (JObj fkv) ->
  dict_lookup "name" fkv = None ->
  heap st !! contents payload = Some transcript ->
  exists st',
    conversation_loop payload system_prompt json_format apply_json_format_later config
      (S fuel) count st
    = (st',
       Returned
         (error_result
            [("message", JStr "Error parsing API response: 'name'");
             ("details", response_data)])) /\
    heap st' !! contents payload = Some (transcript ++ [turn "model" part]).
Proof.
  intros Hcall Hshape Hfc Hname Hts.
  rewrite (loop_on_parts _ _ _ _ _ _ _ _ _ _ _ Hcall Hshape). simpl.
  unfold process_part. rewrite (py_getitem_contains _ _ _ Hfc).
  unfold handle_function_call. rewrite Hfc. simpl. rewrite Hname. simpl.
  eexists. split; [reflexivity |].
  exact (lookup_append_at _ _ (set_api_client st t1) _ Hts).
Qed.

(** A registered tool that returns: after the model's turn come a user turn
    with the sentence naming the variable the result is stored in, and a user
    turn with the function response holding the result, the variable name and
    the type name of the result.  The tool's effect on the variable manager
    and on [_intermediate_results] is kept, and the part ends with [Next]. *)
Theorem tool_result_recorded
    (parts : json) (pos : nat) (part fc tool_name args : json) (count : nat)
    (st : agent C W V) (transcript : list json) (ts : V * gmap string json)
    (function_result variable_name : json) :
  py_getitem part "functionCall" = Ok fc ->
  py_getitem fc "name" = Ok tool_name ->
  py_get_default fc "args" (JObj []) = Ok args ->
  has_tool tool_name = true ->
  execute_tool (variable_manager st, intermediate_results st) tool_name args
  = (ts, ToolReturned function_result variable_name) ->
  heap st !! contents payload = Some transcript ->
  exists st',
    process_part payload system_prompt json_format apply_json_format_later config
      parts pos part count st = (st', Next) /\
    heap st' !! contents payload
    = Some (transcript
            ++ [turn "model" part;
                turn "user"
                  (text_part
                     ("the return value of the function stored in the variable "
                      +:+ fmt variable_name));
                turn "user"
                  (JObj [("functionResponse",
                          JObj [("name", tool_name);
                                ("response",
                                 JObj [("content", function_result);
                                       ("key", variable_name);
                                       ("content_type",
                                        JStr (py_type_name function_result))])])])]) /\
    variable_manager st' = fst ts /\
    intermediate_results st' = snd ts /\
    api_client st' = api_client st.
Proof.
  intros Hfc Hname Hargs Hknown Hexec Hts.
  eexists. split.
  - unfold process_part. rewrite (py_getitem_contains _ _ _ Hfc).
    unfold handle_function_call. rewrite Hfc. simpl.
    rewrite Hname. simpl. rewrite Hargs. simpl.
    rewrite Hknown. simpl. rewrite Hexec. reflexivity.
  - split; [| repeat split; reflexivity].
    erewrite lookup_append_at; [| erewrite lookup_append_at;
                                   [reflexivity | exact (lookup_append_at _ _ _ _ Hts)]].
    rewrite <- !app_assoc. reflexivity.
Qed.

(** Every function call that has a name is answered in the transcript,
    whatever becomes of it (unknown tool, a result, an exception): the model's
    turn is followed by one or two turns, all of the user, the last of which is
    the function response for that name; processing goes on and nothing was
    sent. *)
Theorem named_call_is_answered
    (parts : json) (pos : nat) (part fc tool_name : json) (count : nat)
    (st : agent C W V) (transcript : list json) :
  py_getitem part "functionCall" = Ok fc ->
  py_getitem fc "name" = Ok tool_name ->
  heap st !! contents payload = Some transcript ->
  exists st' answers response,
    process_part payload system_prompt json_format apply_json_format_later config
      parts pos part count st = (st', Next) /\
    heap st' !! contents payload
    = Some (transcript ++ turn "model" part :: answers) /\
    1 <= length answers <= 2 /\
    Forall is_user_turn answers /\
    last answers
    = Some (turn "user"
              (JObj [("functionResponse",
                      JObj [("name", tool_name); ("response", response)])])) /\
    api_client st' = api_client st.
Proof.
  intros Hfc Hname Hts.
  pose proof (lookup_append_at _ (turn "model" part) st _ Hts) as H1.
  unfold process_part. rewrite (py_getitem_contains _ _ _ Hfc).
  unfold handle_function_call. rewrite Hfc. simpl. rewrite Hname. simpl.
  apply py_getitem_Ok in Hname as (kv & -> & _). simpl.
  destruct (has_tool tool_name); simpl.
  - destruct (execute_tool _ tool_name _) as [ts [result name | msg]].
    + eexists _, [_; _], _. split; [reflexivity |]. split.
      * erewrite lookup_append_at;
          [| erewrite lookup_append_at; [reflexivity | exact H1]].
        rewrite <- !app_assoc. reflexivity.
      * split; [simpl; lia |]. split; [repeat constructor |].
        split; reflexivity.
    + eexists _, [_], _. split; [reflexivity |]. split.
      * erewrite lookup_append_at; [| exact H1].
        rewrite <- !app_assoc. reflexivity.
      * split; [simpl; lia |]. split; [repeat constructor |].
        split; reflexivity.
  - eexists _, [_], _. split; [reflexivity |]. split.
    + erewrite lookup_append_at; [| exact H1].
      rewrite <- !app_assoc. reflexivity.
    + split; [simpl; lia |]. split; [repeat constructor |].
      split; reflexivity.
Qed.

(** Without JSON formatting, the first part being a text and no later part a
    function call, the call returns that first text as it is, whatever its
    type; the parts after it are not looked at any further and the transcript
    is not touched. *)
Theorem first_text_is_returned
    (fuel count : nat) (st : agent C W V) (t1 : transport C W)
    (response_data text : json) (pkv : list (string * json)) (rest : list json) :
  call_gemini_api (api_client st) (payload_json (heap st) payload) config
  = (t1, Ok response_data) ->
  has_parts response_data (JObj pkv :: rest) ->
  dict_lookup "functionCall" pkv = None ->
  dict_lookup "text" pkv = Some text ->
  Forall (fun q => py_contains "functionCall" q = Ok false) rest ->
  conversation_loop payload system_prompt false false config (S fuel) count st
  = (set_api_client st t1, Returned text).
Proof.
  intros Hcall Hshape Hnocall Htext Hrest.
  rewrite (loop_on_parts _ _ _ _ _ _ _ _ _ _ _ Hcall Hshape). simpl.
  unfold process_part. simpl. unfold dict_has. rewrite Hnocall, Htext.
  unfold handle_text. simpl. rewrite Htext. simpl.
  unfold has_more_function_calls. simpl. rewrite drop_0.
  rewrite (any_function_call_false _ Hrest). reflexivity.
Qed.

(** With JSON requested and no deferred formatting, a final text that is not
    a string is not parsed and not returned: [json.loads] raises [TypeError],
    which no handler of [prompt] catches. *)
Theorem json_text_must_be_string
    (fuel count : nat) (st : agent C W V) (t1 : transport C W)
    (response_data text : json) (pkv : list (string * json)) (rest : list json) :
  call_gemini_api (api_client st) (payload_json (heap st) payload) config
  = (t1, Ok response_data) ->
  has_parts response_data (JObj pkv :: rest) ->
  dict_lookup "functionCall" pkv = None ->
  dict_lookup "text" pkv = Some text ->
  Forall (fun q => py_contains "functionCall" q = Ok false) rest ->
  (forall s, text <> JStr s) ->
  conversation_loop payload system_prompt true false config (S fuel) count st
  = (set_api_client st t1, Raised TypeError).
Proof.
  intros Hcall Hshape Hnocall Htext Hrest Hnotstr.
  rewrite (loop_on_parts _ _ _ _ _ _ _ _ _ _ _ Hcall Hshape). simpl.
  unfold process_part. simpl. unfold dict_has. rewrite Hnocall, Htext.
  unfold handle_text. simpl. rewrite Htext. simpl.
  unfold has_more_function_calls. simpl. rewrite drop_0.
  rewrite (any_function_call_false _ Hrest). simpl.
  destruct text; try reflexivity. exfalso. eapply Hnotstr. reflexivity.
Qed.

Lemma other_parts_are_skipped parts items : forall pos count st,
  Forall is_other_part items ->
  process_parts payload system_prompt json_format apply_json_format_later config
    parts pos items count st = (st, Next).
Proof.
  induction items as [| q items IH]; intros pos count st Hall; [reflexivity |].
  inversion Hall as [| ? ? (kv & -> & Hc & Ht) Hall']; subst.
  simpl. unfold process_part. simpl. unfold dict_has. rewrite Hc, Ht.
  apply IH. exact Hall'.
Qed.

(** A reply with no part, or whose parts hold neither a function call nor a
    text, changes nothing but the transport: the loop goes on and its next
    request carries the same transcript. *)
Theorem empty_reply_asks_again
    (fuel count : nat) (st : agent C W V) (t1 : transport C W)
    (response_data : json) (items : list json) :
  call_gemini_api (api_client st) (payload_json (heap st) payload) config
  = (t1, Ok response_data) ->
  has_parts response_data items ->
  Forall is_other_part items ->
  conversation_loop payload system_prompt json_format apply_json_format_later config
    (S fuel) count st
  = conversation_loop payload system_prompt json_format apply_json_format_later config
      fuel (S count) (set_api_client st t1) /\
  payload_json (heap (set_api_client st t1)) payload = payload_json (heap st) payload.
Proof.
  intros Hcall Hshape Hall.
  rewrite (loop_on_parts _ _ _ _ _ _ _ _ _ _ _ Hcall Hshape).
  rewrite (other_parts_are_skipped _ _ _ _ _ Hall). split; reflexivity.
Qed.

(** Feedback of a blocked reply that is true and not an object is outside
    what the handler expects: [feedback.get] raises [AttributeError], which
    leaves [prompt]. *)
Theorem feedback_that_is_no_object_raises
    (fuel count : nat) (st : agent C W V) (t1 : transport C W)
    (kv : list (string * json)) (feedback : json) :
  call_gemini_api (api_client st) (payload_json (heap st) payload) config
  = (t1, Ok (JObj kv)) ->
  dict_lookup "candidates" kv = None \/ dict_lookup "candidates" kv = Some (JList []) ->
  dict_lookup "promptFeedback" kv = Some feedback ->
  truthy feedback = true ->
  (forall fkv, feedback <> JObj fkv) ->
  conversation_loop payload system_prompt json_format apply_json_format_later config
    (S fuel) count st
  = (set_api_client st t1, Raised AttributeError).
Proof.
  intros Hcall Hcand Hlookup Htruthy Hshape.
  simpl. unfold loop_body. rewrite Hcall. unfold handle_response. simpl.
  replace (truthy (default JNull (dict_lookup "candidates" kv))) with false
    by (destruct Hcand as [-> | ->]; reflexivity).
  simpl.
  rewrite (blocked_result_needs_object_feedback kv feedback Hlookup Htruthy Hshape).
  reflexivity.
Qed.

(** When the credentials cannot be refreshed nothing is posted.  The
    exception leaves [prompt], except an [HTTPError], which the loop turns
    into an error result like a refused request. *)
Theorem refresh_failure_sends_nothing
    (fuel count : nat) (st : agent C W V) (w1 : W) (e : exn) :
  creds_refresh (creds (client (api_client st))) (net (api_client st))
  = (w1, Raise e) ->
  conversation_loop payload system_prompt json_format apply_json_format_later config
    (S fuel) count st
  = (set_api_client st
       (mkTransport (client (api_client st)) w1 (sent (api_client st))),
     match e with
     | HTTPError msg => Returned (error_result [("message", JStr msg)])
     | _ => Raised e
     end).
Proof.
  intros Hr. simpl. unfold loop_body, call_gemini_api. rewrite Hr.
  destruct e; reflexivity.
Qed.

End LoopProperties.

(** *** What the loop preserves

    A relation between states that holds across an append to the contents, a
    transport call and the execution of a registered tool holds across the
    whole loop. *)

Section Frame.

Variable payload : Payload.
Variable system_prompt : option string.
Variable json_format : bool.
Variable apply_json_format_later : bool.
Variable config : json.

Variable kept : agent C W V -> agent C W V -> Prop.

Hypothesis kept_refl : forall st, kept st st.
Hypothesis kept_trans : forall st1 st2 st3, kept st1 st2 -> kept st2 st3 -> kept st1 st3.
Hypothesis kept_append :
  forall x st, kept st (append_at (contents payload) x st).
Hypothesis kept_call :
  forall st body,
    kept st (set_api_client st (fst (call_gemini_api (api_client st) body config))).
Hypothesis kept_tool :
  forall st name args,
    has_tool name = true ->
    kept st
      (set_tools_state st
         (fst (execute_tool (variable_manager st, intermediate_results st) name args))).

Lemma kept_handle_function_call part st :
  kept st (fst (handle_function_call payload part st)).
Proof.
  unfold handle_function_call.
  set (st1 := append_at (contents payload) (turn "model" part) st).
  assert (K1 : kept st st1) by apply kept_append.
  destruct (fc <-? py_getitem part "functionCall" ;;
            tool_name <-? py_getitem fc "name" ;;
            args <-? py_get_default fc "args" (JObj []) ;;
            Ok (tool_name, args)) as [[tool_name args] | e]; [| exact K1].
  destruct (has_tool tool_name) eqn:Hknown; simpl.
  - pose proof (kept_tool st1 tool_name args Hknown) as K2.
    destruct (execute_tool _ tool_name args) as [ts [result name | msg]];
      simpl in K2 |- *.
    + eapply kept_trans; [exact K1 |]. eapply kept_trans; [exact K2 |].
      eapply kept_trans; apply kept_append.
    + eapply kept_trans; [exact K1 |]. eapply kept_trans; [exact K2 |].
      apply kept_append.
  - eapply kept_trans; [exact K1 | apply kept_append].
Qed.

Lemma kept_format_as_json st final_text count :
  kept st (fst (_format_as_json payload system_prompt config st final_text count)).
Proof.
  unfold _format_as_json.
  destruct (_get_system_prompt st) as [generated | e]; [| apply kept_refl].
  pose proof (kept_call st (formatting_payload payload system_prompt st generated
                              final_text)) as K.
  destruct (call_gemini_api (api_client st) _ config) as [t1 r]. simpl in K.
  destruct (structured_response_data <-? r ;;
            structured_text <-? structured_text_of structured_response_data ;;
            py_json_loads structured_text); exact K.
Qed.

Lemma kept_process_part parts pos part count st :
  kept st (fst (process_part payload system_prompt json_format
                  apply_json_format_later config parts pos part count st)).
Proof.
  unfold process_part.
  destruct (py_contains "functionCall" part) as [[|] | e]; [| | apply kept_refl].
  - apply kept_handle_function_call.
  - destruct (py_contains "text" part) as [[|] | e]; try apply kept_refl.
    unfold handle_text.
    destruct (final_text <-? py_getitem part "text" ;;
              more <-? has_more_function_calls parts pos part ;;
              Ok (final_text, more)) as [[final_text [|]] | e];
      try apply kept_refl.
    destruct apply_json_format_later; [apply kept_format_as_json |].
    destruct json_format; [| apply kept_refl].
    destruct (py_json_loads final_text) as [v | []]; apply kept_refl.
Qed.

Lemma kept_process_parts parts rest : forall pos count st,
  kept st (fst (process_parts payload system_prompt json_format
                  apply_json_format_later config parts pos rest count st)).
Proof.
  induction rest as [| part rest IH]; intros pos count st; simpl;
    [apply kept_refl |].
  pose proof (kept_process_part parts pos part count st) as K.
  destruct (process_part payload system_prompt json_format apply_json_format_later
              config parts pos part count st) as [st1 [| v | e]]; simpl in K |- *;
    try exact K.
  eapply kept_trans; [exact K | apply IH].
Qed.

Lemma kept_handle_response response_data count st :
  kept st (fst (handle_response payload system_prompt json_format
                  apply_json_format_later config response_data count st)).
Proof.
  unfold handle_response.
  destruct (py_get response_data "candidates") as [candidates | e];
    [| apply kept_refl].
  destruct (negb (truthy candidates)).
  - destruct (blocked_result response_data); apply kept_refl.
  - unfold process_response.
    destruct (candidates0 <-? py_getitem response_data "candidates" ;;
              candidate <-? py_getitem0 candidates0 ;;
              content <-? py_getitem candidate "content" ;;
              parts <-? py_getitem content "parts" ;;
              items <-? py_iter parts ;;
              Ok (parts, items)) as [[parts items] | e].
    + pose proof (kept_process_parts parts items 0 count st) as K.
      destruct (process_parts payload system_prompt json_format
                  apply_json_format_later config parts 0 items count st)
        as [st1 [| v | []]]; exact K.
    + destruct e; apply kept_refl.
Qed.

Lemma kept_loop_body count st :
  kept st (fst (loop_body payload system_prompt json_format apply_json_format_later
                  config count st)).
Proof.
  unfold loop_body.
  pose proof (kept_call st (payload_json (heap st) payload)) as K.
  destruct (call_gemini_api (api_client st) _ config) as [t1 r]. simpl in K.
  destruct r as [response_data | e].
  - eapply kept_trans; [exact K | apply kept_handle_response].
  - destruct e; exact K.
Qed.

Lemma kept_conversation_loop fuel : forall count st,
  kept st (fst (conversation_loop payload system_prompt json_format
                  apply_json_format_later config fuel count st)).
Proof.
  induction fuel as [| fuel IH]; intros count st; simpl; [apply kept_refl |].
  pose proof (kept_loop_body count st) as K.
  destruct (loop_body payload system_prompt json_format apply_json_format_later
              config count st) as [st1 [| v | e]]; simpl in K |- *; try exact K.
  eapply kept_trans; [exact K | apply IH].
Qed.

End Frame.

(** *** Whole calls *)

(** The steps of [prompt] before its loop. *)
Lemma prompt_steps (st : agent C W V) (user_prompt : string)
    (system_prompt : option string) (json_format : bool)
    (conversation_history : option loc) (config : option json) (fuel : nat) :
  let l := fst (choose_contents conversation_history (set_intermediate_results st ∅)) in
  let st1 := snd (choose_contents conversation_history (set_intermediate_results st ∅)) in
  (exists e,
      _get_system_prompt st1 = Raise e /\
      prompt st user_prompt system_prompt json_format conversation_history config fuel
      = (st1, Raised e))
  \/ (exists generated,
         _get_system_prompt st1 = Ok generated /\
         prompt st user_prompt system_prompt json_format conversation_history config
           fuel
         = conversation_loop
             (build_payload system_prompt json_format generated l)
             system_prompt json_format (json_format && has_tools)
             (default (JObj []) config) fuel 0
             (append_at l (turn "user" (text_part user_prompt)) st1)).
Proof.
  unfold prompt.
  destruct (choose_contents conversation_history (set_intermediate_results st ∅))
    as [l st1]. simpl.
  destruct (_get_system_prompt st1) as [generated | e]; [right | left]; eauto.
Qed.

(** A call of [prompt], whatever its per-call config and however it ends,
    leaves the client's key path, model, region, project and [base_url] as
    they were. *)
Theorem prompt_keeps_client_configuration
    (st : agent C W V) (user_prompt : string) (system_prompt : option string)
    (json_format : bool) (conversation_history : option loc) (config : option json)
    (fuel : nat) :
  let self := client (api_client st) in
  let self' :=
    client (api_client
              (fst (prompt st user_prompt system_prompt json_format
                      conversation_history config fuel))) in
  key_path self' = key_path self /\
  model_name self' = model_name self /\
  region self' = region self /\
  project_id self' = project_id self /\
  base_url self' = base_url self.
Proof.
  set (same := fun a b : agent C W V =>
                 key_path (client (api_client b)) = key_path (client (api_client a)) /\
                 model_name (client (api_client b)) = model_name (client (api_client a)) /\
                 region (client (api_client b)) = region (client (api_client a)) /\
                 project_id (client (api_client b)) = project_id (client (api_client a)) /\
                 base_url (client (api_client b)) = base_url (client (api_client a))).
  assert (Hrefl : forall a, same a a) by (intros a; repeat split).
  assert (Htrans : forall a b c, same a b -> same b c -> same a c).
  { intros a b c (H1 & H2 & H3 & H4 & H5) (K1 & K2 & K3 & K4 & K5).
    repeat split; congruence. }
  assert (Hcall : forall cfg a body,
             same a (set_api_client a (fst (call_gemini_api (api_client a) body cfg)))).
  { intros cfg a body.
    destruct (call_gemini_api_effect (api_client a) body cfg) as [Hc _].
    unfold same. simpl in *. destruct Hc as [-> | [c ->]]; repeat split. }
  pose proof (choose_contents_spec conversation_history (set_intermediate_results st ∅))
    as (Hapi & _).
  simpl in Hapi.
  destruct (prompt_steps st user_prompt system_prompt json_format
              conversation_history config fuel) as [(e & _ & ->) | (g & _ & ->)].
  - simpl. rewrite Hapi. repeat split.
  - pose proof (kept_conversation_loop
                  (build_payload system_prompt json_format g
                     (fst (choose_contents conversation_history
                             (set_intermediate_results st ∅))))
                  system_prompt json_format (json_format && has_tools)
                  (default (JObj []) config) same Hrefl Htrans
                  (fun x a => Hrefl a) (Hcall _) (fun a n args _ => Hrefl a) fuel 0
                  (append_at
                     (fst (choose_contents conversation_history
                             (set_intermediate_results st ∅)))
                     (turn "user" (text_part user_prompt))
                     (snd (choose_contents conversation_history
                             (set_intermediate_results st ∅))))) as K.
    unfold same in K. simpl in K. rewrite Hapi in K. exact K.
Qed.

(** When [has_tool] accepts no name, no tool is ever executed: a call leaves
    the variable manager as it was and [_intermediate_results] empty, whatever
    function calls the model asks for. *)
Theorem no_registered_tool_no_side_effect
    (st : agent C W V) (user_prompt : string) (system_prompt : option string)
    (json_format : bool) (conversation_history : option loc) (config : option json)
    (fuel : nat) :
  (forall name, has_tool name = false) ->
  let st' :=
    fst (prompt st user_prompt system_prompt json_format conversation_history
           config fuel) in
  variable_manager st' = variable_manager st /\ intermediate_results st' = ∅.
Proof.
  intros Hnone.
  set (same := fun a b : agent C W V =>
                 variable_manager b = variable_manager a /\
                 intermediate_results b = intermediate_results a).
  assert (Hrefl : forall a, same a a) by (intros a; split; reflexivity).
  assert (Htrans : forall a b c, same a b -> same b c -> same a c).
  { intros a b c [H1 H2] [K1 K2]. split; congruence. }
  pose proof (choose_contents_spec conversation_history (set_intermediate_results st ∅))
    as (_ & Hvm & Hir & _).
  simpl in Hvm, Hir.
  destruct (prompt_steps st user_prompt system_prompt json_format
              conversation_history config fuel) as [(e & _ & ->) | (g & _ & ->)].
  - simpl. split; assumption.
  - pose proof (kept_conversation_loop
                  (build_payload system_prompt json_format g
                     (fst (choose_contents conversation_history
                             (set_intermediate_results st ∅))))
                  system_prompt json_format (json_format && has_tools)
                  (default (JObj []) config) same Hrefl Htrans
                  (fun x a => Hrefl a) (fun a body => Hrefl a)) as K.
    destruct (K (fun a n args H => ltac:(rewrite Hnone in H; discriminate)) fuel 0
                (append_at
                   (fst (choose_contents conversation_history
                           (set_intermediate_results st ∅)))
                   (turn "user" (text_part user_prompt))
                   (snd (choose_contents conversation_history
                           (set_intermediate_results st ∅))))) as [K1 K2].
    simpl in K1, K2. simpl. rewrite K1, K2. split; assumption.
Qed.

(** The list a call works on holds something once it is chosen. *)
Lemma chosen_contents_allocated conversation_history (st : agent C W V) :
  exists xs,
    heap (snd (choose_contents conversation_history st))
    !! fst (choose_contents conversation_history st) = Some xs.
Proof.
  pose proof (choose_contents_spec conversation_history st) as (_ & _ & _ & H).
  simpl in H. destruct H as [(x & xs & _ & Heq & Hl) | [_ Hh]].
  - exists (x :: xs). rewrite Heq. exact Hl.
  - exists []. rewrite Hh. apply lookup_insert_eq.
Qed.

(** The requests of a call all satisfy what the loop requests and the
    formatting requests of its payload satisfy. *)
Lemma prompt_requests_satisfy (ok : request -> Prop)
    (st : agent C W V) (user_prompt : string) (system_prompt : option string)
    (json_format : bool) (conversation_history : option loc) (config : option json)
    (fuel : nat) :
  (forall generated l h url headers,
      ok (Request url headers
            (payload_json h (build_payload system_prompt json_format generated l)))) ->
  (forall generated l s url headers generated' final_text,
      ok (Request url headers
            (formatting_payload (build_payload system_prompt json_format generated l)
               system_prompt s generated' final_text))) ->
  exists new,
    sent (api_client
            (fst (prompt st user_prompt system_prompt json_format
                    conversation_history config fuel)))
    = sent (api_client st) ++ new /\
    Forall ok new.
Proof.
  intros Hloop Hfmt.
  pose proof (choose_contents_spec conversation_history (set_intermediate_results st ∅))
    as (Hapi & _).
  destruct (chosen_contents_allocated conversation_history
              (set_intermediate_results st ∅)) as [xs Hxs].
  simpl in Hapi.
  destruct (prompt_steps st user_prompt system_prompt json_format
              conversation_history config fuel) as [(e & _ & ->) | (g & _ & ->)].
  - exists []. rewrite app_nil_r. simpl. rewrite Hapi. split; [reflexivity | constructor].
  - set (l := fst (choose_contents conversation_history (set_intermediate_results st ∅)))
      in *.
    set (st1 := snd (choose_contents conversation_history
                       (set_intermediate_results st ∅))) in *.
    set (p := build_payload system_prompt json_format g l).
    set (st2 := append_at l (turn "user" (text_part user_prompt)) st1).
    destruct (conversation_loop p system_prompt json_format (json_format && has_tools)
                (default (JObj []) config) fuel 0 st2) as [st3 out] eqn:Hrun.
    assert (Hstart : starts_with (contents p)
                       (xs ++ [turn "user" (text_part user_prompt)]) st2).
    { exists []. rewrite app_nil_r. apply lookup_append_at. exact Hxs. }
    destruct (grows_conversation_loop p system_prompt json_format
                (json_format && has_tools) (default (JObj []) config)
                (xs ++ [turn "user" (text_part user_prompt)]) ok
                (fun s u h _ => Hloop g l (heap s) u h)
                (fun s u h g' f _ => Hfmt g l s u h g' f)
                fuel 0 st2 st3 out Hstart Hrun) as (_ & _ & _ & new & Hsent & Hok).
    exists new. split; [| exact Hok]. simpl. rewrite Hsent. subst st2. simpl.
    rewrite Hapi. reflexivity.
Qed.

(** No request of a call asks for tool calling and for JSON output at once:
    a request that carries "tools" has no "generationConfig".  The requests of
    the loop carry the one or the other, and the formatting request carries no
    tools even when tools are registered. *)
Theorem tools_and_json_mode_never_together
    (st : agent C W V) (user_prompt : string) (system_prompt : option string)
    (json_format : bool) (conversation_history : option loc) (config : option json)
    (fuel : nat) :
  exists new,
    sent (api_client
            (fst (prompt st user_prompt system_prompt json_format
                    conversation_history config fuel)))
    = sent (api_client st) ++ new /\
    Forall tools_exclude_json_mode new.
Proof.
  apply prompt_requests_satisfy.
  - intros generated l h url headers. unfold tools_exclude_json_mode, build_payload.
    simpl. destruct has_tools; simpl.
    + rewrite andb_false_r. simpl. reflexivity.
    + destruct json_format; simpl; discriminate.
  - intros generated l s url headers generated' final_text.
    unfold tools_exclude_json_mode. simpl. discriminate.
Qed.

(** Without a prior transcript, or with an empty one, the call works on a
    list of its own: one list object is created, and every list that existed
    before the call, the caller's empty list included, is as it was.  When the
    system prompt can be built the new list starts with the user prompt. *)
Theorem absent_history_leaves_caller_lists
    (st : agent C W V) (user_prompt : string) (system_prompt : option string)
    (json_format : bool) (conversation_history : option loc) (config : option json)
    (fuel : nat) :
  conversation_history = None
  \/ (exists l, conversation_history = Some l /\ deref (heap st) l = []) ->
  let st' :=
    fst (prompt st user_prompt system_prompt json_format conversation_history
           config fuel) in
  exists own : loc,
    heap st !! own = None /\
    dom (heap st') = {[own]} ∪ dom (heap st) /\
    (forall l', l' <> own -> heap st' !! l' = heap st !! l') /\
    (forall lines,
        tool_lines tools_json = Ok lines ->
        exists more,
          heap st' !! own = Some (turn "user" (text_part user_prompt) :: more)).
Proof.
  intros Hhist.
  assert (Hcc : choose_contents conversation_history (set_intermediate_results st ∅)
                = new_list (set_intermediate_results st ∅)).
  { destruct Hhist as [-> | (l & -> & Hempty)]; [reflexivity |].
    unfold choose_contents.
    change (heap (set_intermediate_results st ∅)) with (heap st).
    rewrite Hempty. reflexivity. }
  set (l := fst (choose_contents conversation_history (set_intermediate_results st ∅)))
    in *.
  set (st1 := snd (choose_contents conversation_history (set_intermediate_results st ∅)))
    in *.
  assert (Hfree : heap st !! l = None).
  { subst l. rewrite Hcc. apply not_elem_of_dom. apply is_fresh. }
  assert (Hnew : heap st1 = <[l := []]> (heap st)).
  { subst l st1. rewrite Hcc. reflexivity. }
  exists l. split; [exact Hfree |].
  destruct (prompt_steps st user_prompt system_prompt json_format
              conversation_history config fuel) as [(e & He & ->) | (g & Hg & ->)];
    fold l st1 in He || fold l st1 in Hg; fold l st1.
  - simpl. rewrite Hnew. split; [apply dom_insert_L |]. split.
    + intros l' Hl'. apply lookup_insert_ne. congruence.
    + intros lines Hlines. unfold _get_system_prompt in He. rewrite Hlines in He.
      discriminate.
  - set (p := build_payload system_prompt json_format g l).
    set (st2 := append_at l (turn "user" (text_part user_prompt)) st1).
    destruct (conversation_loop p system_prompt json_format (json_format && has_tools)
                (default (JObj []) config) fuel 0 st2) as [st3 out] eqn:Hrun.
    assert (Hl1 : heap st1 !! l = Some []).
    { rewrite Hnew. apply lookup_insert_eq. }
    assert (Hstart : starts_with (contents p)
                       ([] ++ [turn "user" (text_part user_prompt)]) st2).
    { exists []. rewrite app_nil_r. apply lookup_append_at. exact Hl1. }
    destruct (grows_conversation_loop p system_prompt json_format
                (json_format && has_tools) (default (JObj []) config)
                ([] ++ [turn "user" (text_part user_prompt)]) (fun _ => True)
                (fun _ _ _ _ => I) (fun _ _ _ _ _ _ => I)
                fuel 0 st2 st3 out Hstart Hrun) as (Hfinal & Hdom & Hframe & _).
    simpl. split; [| split].
    + rewrite Hdom. subst st2. rewrite dom_append_at, Hnew. apply dom_insert_L.
    + intros l' Hl'. change (contents p) with l in Hframe.
      rewrite (Hframe l' Hl'). subst st2.
      rewrite lookup_append_at_ne by congruence.
      rewrite Hnew. apply lookup_insert_ne. congruence.
    + intros _ _. destruct Hfinal as [more Hm]. exists more. exact Hm.
Qed.

(** A tool declaration without a "name" stops [prompt] while it builds the
    system prompt: [KeyError] for that key leaves the call, nothing was sent,
    and no list that existed before the call was changed; the user prompt was
    not appended to the caller's transcript. *)
Theorem declaration_without_name_stops_prompt
    (st : agent C W V) (user_prompt : string) (system_prompt : option string)
    (json_format : bool) (conversation_history : option loc) (config : option json)
    (fuel : nat) (dkv : list (string * json)) (others : list json) :
  tools_json = JObj dkv :: others ->
  dict_lookup "name" dkv = None ->
  let run :=
    prompt st user_prompt system_prompt json_format conversation_history config
      fuel in
  snd run = Raised (KeyError "'name'") /\
  api_client (fst run) = api_client st /\
  variable_manager (fst run) = variable_manager st /\
  (forall l xs, heap st !! l = Some xs -> heap (fst run) !! l = Some xs).
Proof.
  intros Htools Hname.
  assert (Hlines : tool_lines tools_json = Raise (KeyError "'name'")).
  { rewrite Htools. simpl. unfold tool_line. simpl. rewrite Hname. reflexivity. }
  pose proof (choose_contents_spec conversation_history (set_intermediate_results st ∅))
    as (Hapi & Hvm & _ & Hheap).
  simpl in Hapi, Hvm, Hheap.
  destruct (prompt_steps st user_prompt system_prompt json_format
              conversation_history config fuel) as [(e & He & ->) | (g & Hg & _)].
  - unfold _get_system_prompt in He. rewrite Hlines in He. simpl in He.
    inversion He; subst. simpl.
    split; [reflexivity |]. split; [exact Hapi |]. split; [exact Hvm |].
    intros l xs Hl.
    destruct Hheap as [(_ & _ & _ & -> & _) | [Hfree ->]]; [exact Hl |].
    rewrite lookup_insert_ne; [exact Hl |]. intros <-. simpl in Hfree. congruence.
  - unfold _get_system_prompt in Hg. rewrite Hlines in Hg. discriminate.
Qed.

(** *** How many requests a call posts *)

Section RequestCount.

Variable payload : Payload.
Variable system_prompt : option string.
Variable json_format : bool.
Variable apply_json_format_later : bool.
Variable config : json.

Lemma call_posts_at_most_one (t : transport C W) (body cfg : json) :
  length (sent (fst (call_gemini_api t body cfg))) <= S (length (sent t)).
Proof.
  destruct (call_gemini_api_effect t body cfg) as [_ [H | (u & h & _ & H)]];
    simpl in H; rewrite H; [lia |].
  rewrite length_app. simpl. lia.
Qed.

Lemma handle_function_call_keeps_client part (st : agent C W V) :
  api_client (fst (handle_function_call payload part st)) = api_client st.
Proof.
  unfold handle_function_call.
  destruct (fc <-? py_getitem part "functionCall" ;;
            tool_name <-? py_getitem fc "name" ;;
            args <-? py_get_default fc "args" (JObj []) ;;
            Ok (tool_name, args)) as [[tool_name args] | e]; [| reflexivity].
  destruct (has_tool tool_name); simpl; [| reflexivity].
  destruct (execute_tool _ tool_name args) as [ts [result name | msg]]; reflexivity.
Qed.

Lemma format_as_json_posts (st : agent C W V) final_text count :
  snd (_format_as_json payload system_prompt config st final_text count) <> Next /\
  length (sent (api_client
                  (fst (_format_as_json payload system_prompt config st final_text
                          count))))
  <= S (length (sent (api_client st))).
Proof.
  unfold _format_as_json.
  destruct (_get_system_prompt st) as [generated | e]; simpl;
    [| split; [discriminate | lia]].
  pose proof (call_posts_at_most_one (api_client st)
                (formatting_payload payload system_prompt st generated final_text)
                config) as H.
  destruct (call_gemini_api (api_client st) _ config) as [t1 r]. simpl in H.
  destruct (structured_response_data <-? r ;;
            structured_text <-? structured_text_of structured_response_data ;;
            py_json_loads structured_text); simpl; split; try discriminate; exact H.
Qed.

(** A part leaves the client alone, unless it is the final text of a call
    with deferred formatting: then it posts at most once and ends the loop. *)
Lemma process_part_posts parts pos part count (st : agent C W V) :
  let r := process_part payload system_prompt json_format apply_json_format_later
             config parts pos part count st in
  api_client (fst r) = api_client st
  \/ (apply_json_format_later = true /\ snd r <> Next /\
      length (sent (api_client (fst r))) <= S (length (sent (api_client st)))).
Proof.
  unfold process_part.
  destruct (py_contains "functionCall" part) as [[|] | e]; simpl; auto.
  - left. apply handle_function_call_keeps_client.
  - destruct (py_contains "text" part) as [[|] | e]; simpl; auto.
    unfold handle_text.
    destruct (final_text <-? py_getitem part "text" ;;
              more <-? has_more_function_calls parts pos part ;;
              Ok (final_text, more)) as [[final_text [|]] | e]; simpl; auto.
    destruct apply_json_format_later.
    + right. split; [reflexivity |]. apply format_as_json_posts.
    + left. destruct json_format; [| reflexivity].
      destruct (py_json_loads final_text) as [v | []]; reflexivity.
Qed.

Lemma process_parts_posts parts rest : forall pos count (st : agent C W V),
  let r := process_parts payload system_prompt json_format apply_json_format_later
             config parts pos rest count st in
  api_client (fst r) = api_client st
  \/ (apply_json_format_later = true /\ snd r <> Next /\
      length (sent (api_client (fst r))) <= S (length (sent (api_client st)))).
Proof.
  induction rest as [| part rest IH]; intros pos count st; simpl; [auto |].
  pose proof (process_part_posts parts pos part count st) as H. simpl in H.
  destruct (process_part payload system_prompt json_format apply_json_format_later
              config parts pos part count st) as [st1 sig]. simpl in H.
  destruct sig; simpl; try exact H.
  destruct H as [Hsame | (_ & Hnext & _)]; [| congruence].
  rewrite <- Hsame. apply IH.
Qed.

Lemma handle_response_posts response_data count (st : agent C W V) :
  let r := handle_response payload system_prompt json_format apply_json_format_later
             config response_data count st in
  api_client (fst r) = api_client st
  \/ (apply_json_format_later = true /\ snd r <> Next /\
      length (sent (api_client (fst r))) <= S (length (sent (api_client st)))).
Proof.
  unfold handle_response.
  destruct (py_get response_data "candidates") as [candidates | e]; simpl; auto.
  destruct (negb (truthy candidates)).
  - destruct (blocked_result response_data); simpl; auto.
  - unfold process_response.
    destruct (candidates0 <-? py_getitem response_data "candidates" ;;
              candidate <-? py_getitem0 candidates0 ;;
              content <-? py_getitem candidate "content" ;;
              parts <-? py_getitem content "parts" ;;
              items <-? py_iter parts ;;
              Ok (parts, items)) as [[parts items] | e].
    + pose proof (process_parts_posts parts items 0 count st) as H. simpl in H.
      destruct (process_parts payload system_prompt json_format
                  apply_json_format_later config parts 0 items count st)
        as [st1 sig]. simpl in H.
      destruct sig as [| v | []]; simpl; try exact H.
      * destruct H as [H | (Ha & _ & Hl)]; [left; exact H |].
        right. split; [exact Ha |]. split; [discriminate | exact Hl].
      * destruct H as [H | (Ha & _ & Hl)]; [left; exact H |].
        right. split; [exact Ha |]. split; [discriminate | exact Hl].
    + destruct e; simpl; auto.
Qed.

Lemma loop_body_posts count (st : agent C W V) :
  let r := loop_body payload system_prompt json_format apply_json_format_later
             config count st in
  length (sent (api_client (fst r)))
  <= length (sent (api_client st)) + 1
     + match snd r with
       | Next => 0
       | _ => if apply_json_format_later then 1 else 0
       end.
Proof.
  unfold loop_body.
  pose proof (call_posts_at_most_one (api_client st) (payload_json (heap st) payload)
                config) as Hcall.
  destruct (call_gemini_api (api_client st) _ config) as [t1 r]. simpl in Hcall.
  destruct r as [response_data | e].
  - pose proof (handle_response_posts response_data (S count) (set_api_client st t1))
      as H. simpl in H.
    destruct (handle_response payload system_prompt json_format
                apply_json_format_later config response_data (S count)
                (set_api_client st t1)) as [st2 sig]. simpl in H |- *.
    destruct H as [-> | (-> & Hnext & Hl)].
    + destruct sig; lia.
    + destruct sig; [congruence | lia | lia].
  - destruct e; simpl; lia.
Qed.

Lemma conversation_loop_posts fuel : forall count (st : agent C W V),
  length (sent (api_client
                  (fst (conversation_loop payload system_prompt json_format
                          apply_json_format_later config fuel count st))))
  <= length (sent (api_client st)) + fuel
     + (if apply_json_format_later then 1 else 0).
Proof.
  induction fuel as [| fuel IH]; intros count st; simpl; [lia |].
  pose proof (loop_body_posts count st) as H. simpl in H.
  destruct (loop_body payload system_prompt json_format apply_json_format_later
              config count st) as [st1 sig]. simpl in H.
  destruct sig; simpl.
  - specialize (IH (S count) st1). lia.
  - destruct apply_json_format_later; lia.
  - destruct apply_json_format_later; lia.
Qed.

End RequestCount.

(** A call posts at most one request per iteration of its loop, and one more
    for the formatting pass when JSON is requested with tools registered:
    after [fuel] iterations at most [fuel], respectively [fuel + 1], requests
    were posted. *)
Theorem prompt_request_bound
    (st : agent C W V) (user_prompt : string) (system_prompt : option string)
    (json_format : bool) (conversation_history : option loc) (config : option json)
    (fuel : nat) :
  length (sent (api_client
                  (fst (prompt st user_prompt system_prompt json_format
                          conversation_history config fuel))))
  <= length (sent (api_client st)) + fuel
     + (if json_format && has_tools then 1 else 0).
Proof.
  pose proof (choose_contents_spec conversation_history (set_intermediate_results st ∅))
    as (Hapi & _).
  simpl in Hapi.
  destruct (prompt_steps st user_prompt system_prompt json_format
              conversation_history config fuel) as [(e & _ & ->) | (g & _ & ->)].
  - simpl. rewrite Hapi. lia.
  - etransitivity; [apply conversation_loop_posts |].
    simpl. rewrite Hapi. lia.
Qed.

End World.

(** ** The model on the scripted world *)

Abbreviation scripted f :=
  (f unit script unit scripted_refresh scripted_token scripted_post scripted_repr
     scripted_loads scripted_tools scripted_has_tool scripted_execute
     scripted_variables_info).

Abbreviation toolless f :=
  (f unit script unit scripted_refresh scripted_token scripted_post scripted_repr
     scripted_loads (@nil json) no_tool scripted_execute scripted_variables_info).

Abbreviation lenient f :=
  (f unit script unit scripted_refresh scripted_token scripted_post scripted_repr
     lenient_loads scripted_tools scripted_has_tool scripted_execute
     scripted_variables_info).

(** The unknown tool [g], called in a content of one part. *)
Lemma unknown_tool_witness :
  scripted_has_tool (JStr "g") = false /\
  exists st',
    scripted process_part (plain_payload 0) None false false JNull
      (JList [call_of "g"]) 0 (call_of "g") 1 (scripted_agent {[0 := []]} [])
    = (st', Next) /\
    heap st' !! 0
    = Some [turn "model" (call_of "g");
            turn "user"
              (error_response_part (JStr "g")
                 "Model attempted to call unknown function 'g'.")].
Proof.
  split; [reflexivity |].
  destruct (scripted unknown_tool_reported_and_loop_continues
              (plain_payload 0) None false false JNull (JList [call_of "g"]) 0
              (call_of "g") (JObj [("name", JStr "g")]) (JStr "g") [] 1
              (scripted_agent {[0 := []]} []) [])
    as (_ & Hl & Hp & _ & _); try reflexivity.
  eexists. split; [exact Hp | exact Hl].
Defined.

(** The registered tool [f] raises; the call is the only part. *)
Lemma failing_tool_witness :
  scripted_has_tool (JStr "f") = true /\
  exists st',
    scripted process_parts (plain_payload 0) None false false JNull
      (JList [call_of "f"]) 0 [call_of "f"] 1 (scripted_agent {[0 := []]} [])
    = (st', Next) /\
    heap st' !! 0
    = Some [turn "model" (call_of "f");
            turn "user"
              (error_response_part (JStr "f")
                 "Error during execution of tool 'f': boom")].
Proof.
  split; [reflexivity |].
  destruct (scripted failing_tool_reported_and_parts_continue
              (plain_payload 0) None false false JNull (JList [call_of "f"]) 0
              (call_of "f") (JObj [("name", JStr "f")]) (JStr "f") (JObj []) [] 1
              (scripted_agent {[0 := []]} []) [] (tt, ∅) "boom")
    as (Hl & _ & _ & Hp); try reflexivity.
  eexists. split; [exact Hp | exact Hl].
Defined.

Abbreviation failing_tool_run :=
  (scripted prompt
     (scripted_agent ∅ [reply_with [call_of "f"; text_part "done"]])
     "hi" None false None None 3).

(** C4 as stated fails: the registered tool [f] raises, a text part follows
    it in the same content, and the call returns that text after its single
    request; no further model response is asked for. *)
Lemma failing_tool_then_text_ends_call :
  scripted_has_tool (JStr "f") = true /\
  scripted_execute (tt, ∅) (JStr "f") (JObj []) = (tt, ∅, ToolRaised "boom") /\
  snd failing_tool_run = Returned (JStr "done") /\
  length (sent (api_client (fst failing_tool_run))) = 1 /\
  heap (fst failing_tool_run) !! 0
  = Some [turn "user" (text_part "hi");
          turn "model" (call_of "f");
          turn "user"
            (error_response_part (JStr "f")
               "Error during execution of tool 'f': boom")].
Proof. vm_compute. repeat split; reflexivity. Qed.

(** A blocked reply. *)
Lemma blocked_response_witness :
  snd (scripted conversation_loop (plain_payload 0) None false false (JObj [])
         1 0 (scripted_agent {[0 := []]} [reply_blocked]))
  = Returned
      (error_result
         [("message", JStr "Request blocked by API. Reason: SAFETY.");
          ("details", JObj [("blockReason", JStr "SAFETY")])]).
Proof.
  destruct (scripted blocked_response_returns_error
              (plain_payload 0) None false false (JObj []) 0 0
              (scripted_agent {[0 := []]} [reply_blocked])
              (fst (call_gemini_api unit script scripted_refresh scripted_token
                      scripted_post scripted_repr
                      (api_client (scripted_agent {[0 := []]} [reply_blocked]))
                      (payload_json {[0 := []]} (plain_payload 0)) (JObj [])))
              [("promptFeedback", JObj [("blockReason", JStr "SAFETY")])])
    as (block_reason & Hrun & Hreason & _).
  - reflexivity.
  - left. reflexivity.
  - intros feedback H _. inversion H. eexists. reflexivity.
  - rewrite Hrun. simpl.
    rewrite (Hreason [("blockReason", JStr "SAFETY")] (JStr "SAFETY") eq_refl eq_refl).
    reflexivity.
Defined.

(** A text the parser accepts, and one it rejects. *)
Lemma json_without_tools_witness :
  toolless process_part (plain_payload 0) None true (true && has_tools []) JNull
    (JList [text_part "1"]) 0 (text_part "1") 1 (scripted_agent {[0 := []]} [])
  = (scripted_agent {[0 := []]} [], Return (JInt 1)) /\
  toolless process_part (plain_payload 0) None true (true && has_tools []) JNull
    (JList [text_part "{oops"]) 0 (text_part "{oops") 1
    (scripted_agent {[0 := []]} [])
  = (scripted_agent {[0 := []]} [], Return (JStr "{oops")).
Proof.
  split.
  - apply (toolless json_without_tools_parses_final_text
             (plain_payload 0) None JNull (JList [text_part "1"]) 0
             (text_part "1") "1" 1 (scripted_agent {[0 := []]} []));
      reflexivity.
  - apply (toolless json_without_tools_parses_final_text
             (plain_payload 0) None JNull (JList [text_part "{oops"]) 0
             (text_part "{oops") "{oops" 1 (scripted_agent {[0 := []]} []));
      reflexivity.
Defined.

(** The reply to the formatting request is the text [1]. *)
Lemma deferred_json_formatting_witness :
  has_tools scripted_tools = true /\
  exists st',
    scripted process_part (plain_payload 0) None true
      (true && has_tools scripted_tools) (JObj [])
      (JList [text_part "final"]) 0 (text_part "final") 1
      (scripted_agent {[0 := []]} [reply_with [text_part "1"]])
    = (st', Return (JInt 1)).
Proof.
  split; [reflexivity |].
  destruct (scripted deferred_json_formatting
              (plain_payload 0) None (JObj []) (JList [text_part "final"]) 0
              (text_part "final") (JStr "final") 1
              (scripted_agent {[0 := []]} [reply_with [text_part "1"]])
              ["- f: a tool"])
    as (value & Hstep & _ & _ & Hparsed & _); try reflexivity.
  eexists. rewrite Hstep. f_equal. f_equal.
  eapply (Hparsed _ "1"); reflexivity.
Defined.

Abbreviation refused_formatting_run :=
  (lenient prompt
     (scripted_agent ∅ [reply_with [text_part "final"]; reply_failure])
     "hi" None true None None 3).

(** C2 as stated fails: with a parser that accepts every text, the
    formatting request is refused by the endpoint and the call still returns
    the raw final text. *)
Lemma raw_text_without_parse_failure :
  (forall s, lenient_loads s <> None) /\
  has_tools scripted_tools = true /\
  snd refused_formatting_run = Returned (JStr "final") /\
  length (sent (api_client (fst refused_formatting_run))) = 2.
Proof.
  split; [discriminate |]. vm_compute. repeat split; reflexivity.
Qed.

(** A call without tools. *)
Lemma no_tools_witness :
  Forall no_tool_fields
    (sent (api_client
             (fst (toolless prompt
                     (scripted_agent ∅ [reply_with [text_part "hello"]])
                     "hi" None false None None 3)))).
Proof.
  destruct (toolless no_tools_no_tool_fields
              (scripted_agent ∅ [reply_with [text_part "hello"]])
              "hi" None false None None 3 eq_refl)
    as (_ & new & Hsent & Hok).
  rewrite Hsent. exact Hok.
Defined.

(** A call on a transcript of one earlier turn. *)
Lemma caller_transcript_witness :
  exists appended,
    heap (fst (scripted prompt
                 (scripted_agent {[5 := [turn "user" (text_part "earlier")]]}
                    [reply_with [call_of "g"; text_part "done"]])
                 "hi" None false (Some 5) None 3)) !! 5
    = Some ([turn "user" (text_part "earlier")]
            ++ turn "user" (text_part "hi") :: appended).
Proof.
  destruct (scripted caller_transcript_mutated_in_place
              (scripted_agent {[5 := [turn "user" (text_part "earlier")]]}
                 [reply_with [call_of "g"; text_part "done"]])
              "hi" None false 5 (turn "user" (text_part "earlier")) [] None 3
              ["- f: a tool"])
    as (_ & _ & Happ & _); try reflexivity.
  exact Happ.
Defined.

(** A call that overrides the model, followed by one without a config. *)
Lemma config_override_witness :
  base_url
    (client
       (fst (call_gemini_api unit script scripted_refresh scripted_token
               scripted_post scripted_repr
               (mkTransport scripted_client [reply_with []; reply_with []] [])
               JNull (JObj [("model_name", JStr "gemini-pro")]))))
  = base_url scripted_client /\
  model_name
    (client
       (fst (call_gemini_api unit script scripted_refresh scripted_token
               scripted_post scripted_repr
               (mkTransport scripted_client [reply_with []; reply_with []] [])
               JNull (JObj [("model_name", JStr "gemini-pro")]))))
  = "gemini-1.5-flash" /\
  request_url unit scripted_repr scripted_client
    (JObj [("model_name", JStr "gemini-pro")])
  = Ok (endpoint_url "us-central1" "proj" "gemini-pro").
Proof.
  destruct (config_override_is_per_call unit script scripted_refresh scripted_token
              scripted_post scripted_repr
              (mkTransport scripted_client [reply_with []; reply_with []] [])
              JNull (JObj [("model_name", JStr "gemini-pro")]) JNull JNull)
    as ((Hmodel & _ & Hbase & _) & _ & Hurl & _).
  split; [exact Hbase |]. split; [exact Hmodel |].
  exact (Hurl "model_name" (JStr "gemini-pro") [] eq_refl).
Defined.

Abbreviation repeated_text_run :=
  (scripted prompt
     (scripted_agent ∅
        [reply_with [text_part "Done"; call_of "g"; text_part "Done"]])
     "hi" None false None None 3).

(** A content that repeats its text around a function call: after the last
    text the loop asks the endpoint again, although the content ended without
    a pending function call; the script has no second reply. *)
Lemma repeated_text_asks_again :
  snd repeated_text_run = Raised (OtherException "connection refused") /\
  length (sent (api_client (fst repeated_text_run))) = 2.
Proof. vm_compute. split; reflexivity. Qed.

(** ** Further runs on the scripted world *)

Abbreviation returning f :=
  (f unit script unit scripted_refresh scripted_token scripted_post scripted_repr
     scripted_loads scripted_tools scripted_has_tool returning_execute
     scripted_variables_info).

Abbreviation nameless f :=
  (f unit script unit scripted_refresh scripted_token scripted_post scripted_repr
     scripted_loads nameless_tools scripted_has_tool scripted_execute
     scripted_variables_info).

Abbreviation stalled f :=
  (f unit script unit failing_refresh scripted_token scripted_post scripted_repr
     scripted_loads scripted_tools scripted_has_tool scripted_execute
     scripted_variables_info).

Abbreviation scripted_call :=
  (call_gemini_api unit script scripted_refresh scripted_token scripted_post
     scripted_repr).

Abbreviation scripted_headers :=
  [("Authorization", "Bearer token"); ("Content-Type", "application/json")].

Abbreviation first_request :=
  (Request (base_url scripted_client) scripted_headers
     (payload_json {[0 := []]} (plain_payload 0))).

Lemma init_client_witness :
  exists self,
    APIClient_init unit scripted_load scripted_project_id
      "key.json" "gemini-1.5-flash" "us-central1" = Ok self /\
    base_url self = endpoint_url "us-central1" "proj" "gemini-1.5-flash".
Proof.
  eexists. split; [reflexivity |].
  destruct (init_client_posts_to_own_endpoint unit scripted_load scripted_project_id
              scripted_repr "key.json" "gemini-1.5-flash" "us-central1") as [_ H].
  destruct (H _ eq_refl) as (_ & _ & _ & _ & _ & Hb & _). exact Hb.
Defined.

Lemma set_project_witness :
  base_url (fst (set_project unit scripted_load scripted_project_id scripted_client
                   "missing.json"))
  = base_url scripted_client /\
  key_path (fst (set_project unit scripted_load scripted_project_id scripted_client
                   "missing.json"))
  = "missing.json".
Proof.
  destruct (set_project_keeps_model_and_region unit scripted_load scripted_project_id
              scripted_client "missing.json") as (_ & _ & _ & H).
  destruct (H _ eq_refl) as (_ & Hb & _ & _ & Hk).
  split; [exact Hb | apply Hk; discriminate].
Defined.

Lemma call_returns_witness :
  exists response,
    resp_ok response = true /\
    resp_json response
    = Ok (JObj [("candidates",
                 JList [JObj [("content", JObj [("parts", JList [])])]])]).
Proof.
  destruct (call_returns_only_ok_bodies unit script scripted_refresh scripted_token
              scripted_post scripted_repr
              (mkTransport scripted_client [reply_with []] []) _ JNull JNull _ eq_refl)
    as (w1 & c1 & url & w2 & response & _ & _ & _ & Hok & Hbody & _).
  exists response. split; [exact Hok | exact Hbody].
Defined.

Lemma failed_status_witness :
  snd (scripted_call (mkTransport scripted_client [reply_failure] []) JNull JNull)
  = Raise (HTTPError "Gemini API Error: quota").
Proof.
  rewrite (failed_status_raises_http_error unit script scripted_refresh scripted_token
             scripted_post scripted_repr
             (mkTransport scripted_client [reply_failure] []) JNull JNull
             [reply_failure] [] tt (base_url scripted_client)
             [("error", JObj [("message", JStr "quota")])]).
  - reflexivity.
  - reflexivity.
  - reflexivity.
  - reflexivity.
  - intros e H. inversion H. eexists. reflexivity.
Defined.

Lemma endpoint_failure_witness :
  snd (scripted conversation_loop (plain_payload 0) None false false (JObj [])
         1 0 (scripted_agent {[0 := []]} [reply_failure]))
  = Returned (error_result [("message", JStr "Gemini API Error: quota")]).
Proof.
  destruct (scripted endpoint_failure_becomes_error_result
              (plain_payload 0) None false false (JObj []) 0 0
              (scripted_agent {[0 := []]} [reply_failure])
              [reply_failure] [] tt (base_url scripted_client)
              [("error", JObj [("message", JStr "quota")])]
              [("message", JStr "quota")] (JStr "quota"))
    as (st' & Hrun & _); [reflexivity .. |].
  rewrite Hrun. reflexivity.
Defined.

Lemma malformed_response_witness :
  snd (scripted conversation_loop (plain_payload 0) None false false (JObj [])
         1 0
         (scripted_agent {[0 := []]}
            [Ok (HttpResponse true (Ok (JObj [("candidates", JList [JObj []])])))]))
  = Returned
      (error_result
         [("message", JStr "Error parsing API response: 'content'");
          ("details", JObj [("candidates", JList [JObj []])])]).
Proof.
  rewrite (scripted malformed_response_becomes_error_result
             (plain_payload 0) None false false (JObj []) 0 0
             (scripted_agent {[0 := []]}
                [Ok (HttpResponse true (Ok (JObj [("candidates", JList [JObj []])])))])
             (mkTransport scripted_client [] [first_request])
             [("candidates", JList [JObj []])] [] [] "content").
  - reflexivity.
  - reflexivity.
  - reflexivity.
  - left. split; reflexivity.
Defined.

Lemma call_without_name_witness :
  exists st',
    scripted conversation_loop (plain_payload 0) None false false (JObj []) 1 0
      (scripted_agent {[0 := []]} [reply_with [JObj [("functionCall", JObj [])]]])
    = (st',
       Returned
         (error_result
            [("message", JStr "Error parsing API response: 'name'");
             ("details",
              JObj [("candidates",
                     JList [JObj [("content",
                                   JObj [("parts",
                                          JList [JObj [("functionCall", JObj [])]])])]])])])) /\
    heap st' !! 0 = Some [turn "model" (JObj [("functionCall", JObj [])])].
Proof.
  destruct (scripted call_without_name_ends_call
              (plain_payload 0) None false false (JObj []) 0 0
              (scripted_agent {[0 := []]}
                 [reply_with [JObj [("functionCall", JObj [])]]])
              (mkTransport scripted_client [] [first_request])
              (JObj [("candidates",
                      JList [JObj [("content",
                                    JObj [("parts",
                                           JList [JObj [("functionCall", JObj [])]])])]])])
              (JObj [("functionCall", JObj [])]) [] [] [])
    as (st' & Hrun & Hheap); try reflexivity.
  - eexists _, _, _, _. repeat split; reflexivity.
  - exists st'. split; [exact Hrun | exact Hheap].
Defined.

Lemma tool_result_witness :
  exists st',
    returning process_part (plain_payload 0) None false false JNull
      (JList [call_of "f"]) 0 (call_of "f") 1 (scripted_agent {[0 := []]} [])
    = (st', Next) /\
    intermediate_results st' = {["result_1" := JInt 7]} /\
    heap st' !! 0
    = Some [turn "model" (call_of "f");
            turn "user"
              (text_part
                 "the return value of the function stored in the variable result_1");
            turn "user"
              (JObj [("functionResponse",
                      JObj [("name", JStr "f");
                            ("response",
                             JObj [("content", JInt 7);
                                   ("key", JStr "result_1");
                                   ("content_type", JStr "int")])])])].
Proof.
  destruct (returning tool_result_recorded
              (plain_payload 0) None false false JNull (JList [call_of "f"]) 0
              (call_of "f") (JObj [("name", JStr "f")]) (JStr "f") (JObj []) 1
              (scripted_agent {[0 := []]} []) []
              (tt, {["result_1" := JInt 7]}) (JInt 7) (JStr "result_1"))
    as (st' & Hstep & Hheap & _ & Hir & _); try reflexivity.
  exists st'. split; [exact Hstep |]. split; [exact Hir | exact Hheap].
Defined.

Lemma named_call_witness :
  exists st' answers,
    scripted process_part (plain_payload 0) None false false JNull
      (JList [call_of "f"]) 0 (call_of "f") 1 (scripted_agent {[0 := []]} [])
    = (st', Next) /\
    heap st' !! 0 = Some ([] ++ turn "model" (call_of "f") :: answers) /\
    Forall is_user_turn answers.
Proof.
  destruct (scripted named_call_is_answered
              (plain_payload 0) None false false JNull (JList [call_of "f"]) 0
              (call_of "f") (JObj [("name", JStr "f")]) (JStr "f") 1
              (scripted_agent {[0 := []]} []) [])
    as (st' & answers & response & Hstep & Hheap & _ & Huser & _); try reflexivity.
  exists st', answers. split; [exact Hstep |]. split; [exact Hheap | exact Huser].
Defined.

Lemma first_text_witness :
  scripted conversation_loop (plain_payload 0) None false false (JObj []) 1 0
    (scripted_agent {[0 := []]} [reply_with [text_part "a"; text_part "b"]])
  = (set_api_client
       (scripted_agent {[0 := []]} [reply_with [text_part "a"; text_part "b"]])
       (mkTransport scripted_client [] [first_request]),
     Returned (JStr "a")).
Proof.
  apply (scripted first_text_is_returned
           (plain_payload 0) None (JObj []) 0 0
           (scripted_agent {[0 := []]} [reply_with [text_part "a"; text_part "b"]])
           (mkTransport scripted_client [] [first_request])
           (JObj [("candidates",
                   JList [JObj [("content",
                                 JObj [("parts",
                                        JList [text_part "a"; text_part "b"])])]])])
           (JStr "a") [("text", JStr "a")] [text_part "b"]); try reflexivity.
  - eexists _, _, _, _. repeat split; reflexivity.
  - repeat constructor.
Defined.

Lemma json_text_witness :
  snd (scripted conversation_loop (plain_payload 0) None true false (JObj []) 1 0
         (scripted_agent {[0 := []]} [reply_with [JObj [("text", JInt 5)]]]))
  = Raised TypeError.
Proof.
  rewrite (scripted json_text_must_be_string
             (plain_payload 0) None (JObj []) 0 0
             (scripted_agent {[0 := []]} [reply_with [JObj [("text", JInt 5)]]])
             (mkTransport scripted_client [] [first_request])
             (JObj [("candidates",
                     JList [JObj [("content",
                                   JObj [("parts",
                                          JList [JObj [("text", JInt 5)]])])]])])
             (JInt 5) [("text", JInt 5)] []); try reflexivity.
  - eexists _, _, _, _. repeat split; reflexivity.
  - constructor.
  - discriminate.
Defined.

Lemma empty_reply_witness :
  snd (scripted conversation_loop (plain_payload 0) None false false (JObj []) 1 0
         (scripted_agent {[0 := []]} [reply_with []]))
  = OutOfFuel.
Proof.
  destruct (scripted empty_reply_asks_again
              (plain_payload 0) None false false (JObj []) 0 0
              (scripted_agent {[0 := []]} [reply_with []])
              (mkTransport scripted_client [] [first_request])
              (JObj [("candidates",
                      JList [JObj [("content", JObj [("parts", JList [])])]])])
              []) as [Hrun _];
    [reflexivity
    | eexists _, _, _, _; repeat split; reflexivity
    | constructor
    | rewrite Hrun; reflexivity].
Defined.

Lemma feedback_no_object_witness :
  snd (scripted conversation_loop (plain_payload 0) None false false (JObj []) 1 0
         (scripted_agent {[0 := []]}
            [Ok (HttpResponse true
                   (Ok (JObj [("promptFeedback", JStr "blocked")])))]))
  = Raised AttributeError.
Proof.
  rewrite (scripted feedback_that_is_no_object_raises
             (plain_payload 0) None false false (JObj []) 0 0
             (scripted_agent {[0 := []]}
                [Ok (HttpResponse true
                       (Ok (JObj [("promptFeedback", JStr "blocked")])))])
             (mkTransport scripted_client [] [first_request])
             [("promptFeedback", JStr "blocked")] (JStr "blocked"));
    try reflexivity.
  - left. reflexivity.
  - discriminate.
Defined.

Lemma refresh_failure_witness :
  snd (stalled conversation_loop (plain_payload 0) None false false (JObj []) 1 0
         (scripted_agent {[0 := []]} [reply_with [text_part "a"]]))
  = Raised (OtherException "refresh failed") /\
  sent (api_client
          (fst (stalled conversation_loop (plain_payload 0) None false false (JObj [])
                  1 0 (scripted_agent {[0 := []]} [reply_with [text_part "a"]]))))
  = [].
Proof.
  rewrite (stalled refresh_failure_sends_nothing
             (plain_payload 0) None false false (JObj []) 0 0
             (scripted_agent {[0 := []]} [reply_with [text_part "a"]])
             [reply_with [text_part "a"]] (OtherException "refresh failed") eq_refl).
  split; reflexivity.
Defined.

Lemma no_registered_tool_witness :
  intermediate_results
    (fst (toolless prompt
            (scripted_agent ∅ [reply_with [call_of "g"; text_part "done"]])
            "hi" None false None None 3))
  = ∅.
Proof.
  destruct (toolless no_registered_tool_no_side_effect
              (scripted_agent ∅ [reply_with [call_of "g"; text_part "done"]])
              "hi" None false None None 3) as [_ H].
  - intros name. reflexivity.
  - exact H.
Defined.

Lemma absent_history_witness :
  exists own : loc,
    heap (scripted_agent {[5 := []]} [reply_with [text_part "done"]]) !! own = None /\
    heap (fst (scripted prompt
                 (scripted_agent {[5 := []]} [reply_with [text_part "done"]])
                 "hi" None false (Some 5) None 3)) !! 5
    = Some [].
Proof.
  destruct (scripted absent_history_leaves_caller_lists
              (scripted_agent {[5 := []]} [reply_with [text_part "done"]])
              "hi" None false (Some 5) None 3) as (own & Hfree & _ & Hframe & _).
  - right. exists 5. split; reflexivity.
  - exists own. split; [exact Hfree |].
    rewrite Hframe; [reflexivity |].
    intros Heq. rewrite <- Heq in Hfree. vm_compute in Hfree. discriminate.
Defined.

Lemma declaration_without_name_witness :
  snd (nameless prompt
         (scripted_agent {[5 := [turn "user" (text_part "earlier")]]}
            [reply_with [text_part "done"]])
         "hi" None false (Some 5) None 3)
  = Raised (KeyError "'name'").
Proof.
  destruct (nameless declaration_without_name_stops_prompt
              (scripted_agent {[5 := [turn "user" (text_part "earlier")]]}
                 [reply_with [text_part "done"]])
              "hi" None false (Some 5) None 3 [("description", JStr "a tool")] []
              eq_refl eq_refl) as [H _].
  exact H.
Defined.

Lemma text_ignored_witness :
  has_more_function_calls
    (JList [text_part "one moment"; call_of "f"]) 0 (text_part "one moment")
  = Ok true.
Proof.
  apply (text_ignored_when_call_follows
           [text_part "one moment"; call_of "f"] 0 1 (text_part "one moment")
           (call_of "f")); try reflexivity.
  - repeat constructor; eexists; reflexivity.
  - lia.
Defined.

Lemma text_final_witness :
  has_more_function_calls
    (JList [call_of "f"; text_part "done"]) 1 (text_part "done")
  = Ok false.
Proof.
  apply (text_final_when_not_repeated [call_of "f"; text_part "done"] 1
           (text_part "done")); try reflexivity.
  - intros m q Hm Hq. destruct m as [| m]; [| lia].
    inversion Hq. reflexivity.
  - intros j q Hj Hq. destruct j as [| [| j]]; try lia. discriminate.
Defined.
